(** * mail-reader: a shallow embedding of [mail_reader/mail_reader.py]

    The development follows the Python module function by function.
    Python text ([str]) is a list of Unicode code points, [bytes] a list of
    octets, a [dict] a finite map, and the effects of the code (the log, the
    standard output, the file system, the commands sent to the IMAP server and
    exceptions) are threaded through a small state-and-exception monad. *)

From Stdlib Require Import ZArith NArith List Bool.
From Stdlib.Strings Require Import Ascii String Byte.
From stdpp Require Import base option list countable gmap.

Set Warnings "-register-all".
Local Open Scope N_scope.
Local Open Scope list_scope.

(** ** Python values *)

(** A character of a Python [str] is a Unicode code point. *)
Definition char : Type := N.
Definition str : Type := list char.
Definition bytes : Type := list byte.

(** String literals of the source, as code points. *)
Definition lit (s : string) : str :=
  List.map N_of_ascii (list_ascii_of_string s).

(** The values a configuration read from YAML can hold. *)
Inductive pyval : Type :=
  | PyNone
  | PyBool (b : bool)
  | PyInt (z : Z)
  | PyStr (s : str)
  | PyList (l : list pyval).

(** Truth value testing, as used by [not x] and [if x:]. *)
Definition truthy (v : pyval) : bool :=
  match v with
  | PyNone => false
  | PyBool b => b
  | PyInt z => negb (Z.eqb z 0)
  | PyStr s => negb (bool_decide (s = []))
  | PyList l => match l with [] => false | _ :: _ => true end
  end.

(** [if filename:] on the result of [get_filename()], which is [None] or a
    [str]. *)
Definition truthy_opt_str (o : option str) : bool :=
  match o with
  | None => false
  | Some s => negb (bool_decide (s = []))
  end.

(** Exceptions the code can raise or let through. [Exception] is the bare
    [Exception(msg)] raised by the constructor; [IMAP4_error] stands for any
    fault of the protocol library. *)
Inductive exn : Type :=
  | Exception (msg : str)
  | UnicodeDecodeError
  | AttributeError
  | UnboundLocalError
  | TypeError
  | IndexError
  | LookupError
  | FileNotFoundError
  | NotADirectoryError
  | FileExistsError
  | IsADirectoryError
  | IMAP4_error.

(** ** [mail_reader.utils.constants]

    The module of constants is imported as [c] by the source but is not among
    the source files, so every definition below takes it as a parameter. *)
Record constants : Type := {
  USER : str;
  PASSWORD : str;
  MAIL : str;
  HOST : str;
  PORT : str;
  SSL : str;
  PATH_ATTACHMENTS : str;
  DEFAULT_MAIL : pyval;
  DEFAULT_HOST : pyval;
  DEFAULT_PORT : pyval;
  DEFAULT_PATH_ATTACHMENTS : pyval
}.

(** [str.isalnum] restricted to ASCII, where it does not depend on the Unicode
    character database: digits, upper-case and lower-case letters. *)
Definition isalnum_ascii (ch : char) : bool :=
  ((48 <=? ch) && (ch <=? 57)) || ((65 <=? ch) && (ch <=? 90))
  || ((97 <=? ch) && (ch <=? 122)).

(** ** Text and byte primitives *)

#[global] Instance byte_eq_dec : EqDecision byte := Byte.byte_eq_dec.

(** [s.split(sep)] for a separator of length one, on [str] and on [bytes]:
    every occurrence of the separator cuts, so the result is never empty and
    has one more element than there are separators. *)
Fixpoint split {A : Type} `{EqDecision A} (sep : A) (s : list A) : list (list A) :=
  match s with
  | [] => [[]]
  | x :: r =>
      if decide (x = sep) then [] :: split sep r
      else match split sep r with
           | [] => [[x]]
           | w :: ws => (x :: w) :: ws
           end
  end.

(** [s.startswith(p)]. *)
Fixpoint startswith (p s : str) : bool :=
  match p, s with
  | [], _ => true
  | _ :: _, [] => false
  | x :: p', y :: s' => (x =? y) && startswith p' s'
  end.

(** [p in s] for two [str]: [p] occurs as a substring of [s]. *)
Fixpoint contains (p s : str) : bool :=
  startswith p s
  || match s with
     | [] => false
     | _ :: s' => contains p s'
     end.

(** [s.endswith("/")]. *)
Definition endswith_slash (s : str) : bool :=
  match List.rev s with
  | ch :: _ => ch =? 47
  | [] => false
  end.

(** [str(x)] for [x] a header value: [None] prints as the text "None". *)
Definition str_of_opt (o : option str) : str :=
  match o with
  | Some s => s
  | None => lit "None"
  end.

(** A continuation octet of UTF-8. *)
Definition utf8_cont (n : N) : bool := (128 <=? n) && (n <=? 191).

(** [b.decode()]: strict UTF-8, the default codec. Overlong forms, surrogates
    and code points above U+10FFFF are refused, as by Python. [None] stands
    for [UnicodeDecodeError]. *)
Fixpoint utf8_decode (b : bytes) : option str :=
  match b with
  | [] => Some []
  | b0 :: r0 =>
      let n0 := Byte.to_N b0 in
      if n0 <? 128 then cons n0 <$> utf8_decode r0
      else if n0 <? 194 then None
      else if n0 <? 224 then
        match r0 with
        | b1 :: r1 =>
            let n1 := Byte.to_N b1 in
            if utf8_cont n1
            then cons ((n0 - 192) * 64 + (n1 - 128)) <$> utf8_decode r1
            else None
        | _ => None
        end
      else if n0 <? 240 then
        match r0 with
        | b1 :: b2 :: r2 =>
            let n1 := Byte.to_N b1 in
            let n2 := Byte.to_N b2 in
            let cp := (n0 - 224) * 4096 + (n1 - 128) * 64 + (n2 - 128) in
            if utf8_cont n1 && utf8_cont n2 && (2048 <=? cp)
               && negb ((55296 <=? cp) && (cp <=? 57343))
            then cons cp <$> utf8_decode r2
            else None
        | _ => None
        end
      else if n0 <? 245 then
        match r0 with
        | b1 :: b2 :: b3 :: r3 =>
            let n1 := Byte.to_N b1 in
            let n2 := Byte.to_N b2 in
            let n3 := Byte.to_N b3 in
            let cp := (n0 - 240) * 262144 + (n1 - 128) * 4096
                      + (n2 - 128) * 64 + (n3 - 128) in
            if utf8_cont n1 && utf8_cont n2 && utf8_cont n3
               && (65536 <=? cp) && (cp <=? 1114111)
            then cons cp <$> utf8_decode r3
            else None
        | _ => None
        end
      else None
  end.

(** [posixpath.join(a, b)] for two components. *)
Definition os_path_join (a b : str) : str :=
  if startswith [47] b then b
  else if bool_decide (a = []) || endswith_slash a then a ++ b
  else a ++ [47] ++ b.

(** ** [email.message.Message] *)

(** What the accessors used by the code return on one message or part:
    [msg["Subject"]], [msg.get("From")], [get_content_type()],
    [get("Content-Disposition")] and [get_filename()]. *)
Record headers : Type := {
  Subject : option str;
  From_ : option str;
  content_type : str;
  Content_Disposition : option str;
  filename : option str
}.

(** A parsed message: a single body, whose payload is given as the octets
    that [get_payload(decode=True)] returns, or a multipart container. *)
Inductive Message : Type :=
  | Leaf (h : headers) (payload : bytes)
  | Multipart (h : headers) (parts : list Message).

Definition msg_headers (m : Message) : headers :=
  match m with
  | Leaf h _ => h
  | Multipart h _ => h
  end.

Definition is_multipart (m : Message) : bool :=
  match m with
  | Leaf _ _ => false
  | Multipart _ _ => true
  end.

(** [get_payload(decode=True)]: [None] on a multipart container. *)
Definition get_payload_decode (m : Message) : option bytes :=
  match m with
  | Leaf _ b => Some b
  | Multipart _ _ => None
  end.

(** [msg.walk()]: the message itself, then its parts, depth first and in
    document order. *)
Fixpoint walk (m : Message) : list Message :=
  m :: match m with
       | Leaf _ _ => []
       | Multipart _ ps => List.flat_map walk ps
       end.

(** ** The world the code acts on *)

Inductive log_entry : Type :=
  | INFO (msg : str)
  | WARNING (msg : str).

(** A file-system entry. Entries are keyed by their absolute path, given as
    the list of its components; the root directory is the empty list. *)
Inductive node : Type :=
  | Dir
  | File (data : bytes).

(** Commands sent to the mail server through [imaplib]. *)
Inductive command : Type :=
  | IMAP4_SSL (h p : pyval)
  | LOGIN (u p : pyval)
  | SELECT (mailbox : str)
  | SEARCH (criteria : str)
  | FETCH (message_set : bytes) (message_parts : str)
  | CLOSE.

(** An element of the data list of a server response. *)
Inductive item : Type :=
  | ItemNone
  | ItemBytes (b : bytes)
  | ItemTuple (envelope raw : bytes).

(** The state: the file system with the working directory, the log, the
    standard output, the commands sent so far and the data written so far
    through file handles (handle and octets, in order). *)
Record world : Type := {
  files : gmap (list str) node;
  cwd : list str;
  log : list log_entry;
  stdout : list str;
  sent : list command;
  written : list (list str * bytes)
}.

Definition set_files (t : gmap (list str) node) (w : world) : world :=
  {| files := t; cwd := cwd w; log := log w; stdout := stdout w;
     sent := sent w; written := written w |}.

Definition add_log (e : log_entry) (w : world) : world :=
  {| files := files w; cwd := cwd w; log := log w ++ [e];
     stdout := stdout w; sent := sent w; written := written w |}.

Definition add_stdout (line : str) (w : world) : world :=
  {| files := files w; cwd := cwd w; log := log w;
     stdout := stdout w ++ [line]; sent := sent w; written := written w |}.

Definition add_sent (cmd : command) (w : world) : world :=
  {| files := files w; cwd := cwd w; log := log w; stdout := stdout w;
     sent := sent w ++ [cmd]; written := written w |}.

Definition add_written (f : list str) (b : bytes) (w : world) : world :=
  {| files := files w; cwd := cwd w; log := log w; stdout := stdout w;
     sent := sent w; written := written w ++ [(f, b)] |}.

(** ** State and exceptions *)

Inductive result (A : Type) : Type :=
  | Return (a : A)
  | Raise (e : exn).
Arguments Return {A} a.
Arguments Raise {A} e.

Definition M (A : Type) : Type := world -> result A * world.

Definition ret {A : Type} (a : A) : M A := fun w => (Return a, w).

Definition raise {A : Type} (e : exn) : M A := fun w => (Raise e, w).

Definition bind {A B : Type} (m : M A) (k : A -> M B) : M B :=
  fun w =>
    match m w with
    | (Return a, w') => k a w'
    | (Raise e, w') => (Raise e, w')
    end.

Notation "x <- m ;; k" := (bind m (fun x => k))
  (at level 100, m at next level, right associativity).
Notation "m ;; k" := (bind m (fun _ => k))
  (at level 100, right associativity).

(** [for x in l: body(x)]. *)
Fixpoint for_each {A : Type} (l : list A) (body : A -> M unit) : M unit :=
  match l with
  | [] => ret tt
  | x :: r => body x ;; for_each r body
  end.

Definition logging_info (msg : str) : M unit :=
  fun w => (Return tt, add_log (INFO msg) w).

Definition logging_warning (msg : str) : M unit :=
  fun w => (Return tt, add_log (WARNING msg) w).

Definition print (line : str) : M unit :=
  fun w => (Return tt, add_stdout line w).

(** ** The file system

    Paths are resolved component by component from the root or from the
    working directory. Links and permissions are not modelled, and where a
    lookup fails the class of the error is the one of the first component
    that is missing or is not a directory. *)

Definition is_dir_at (t : gmap (list str) node) (p : list str) : bool :=
  match p with
  | [] => true
  | _ :: _ => match t !! p with
              | Some Dir => true
              | _ => false
              end
  end.

Definition exists_at (t : gmap (list str) node) (p : list str) : bool :=
  match p with
  | [] => true
  | _ :: _ => match t !! p with
              | Some _ => true
              | None => false
              end
  end.

(** Every component is looked up in a directory: an empty component and "."
    stay there, ".." goes to the parent, a name goes down. The last name need
    not exist. *)
Fixpoint walk_path (t : gmap (list str) node) (cur : list str)
    (comps : list str) : exn + list str :=
  match comps with
  | [] => inr cur
  | n :: rest =>
      if negb (is_dir_at t cur) then
        inl (if exists_at t cur then NotADirectoryError else FileNotFoundError)
      else if bool_decide (n = []) || bool_decide (n = [46]) then
        walk_path t cur rest
      else if bool_decide (n = [46; 46]) then
        walk_path t (List.removelast cur) rest
      else walk_path t (cur ++ [n]) rest
  end.

Definition resolve (w : world) (p : str) : exn + list str :=
  if bool_decide (p = []) then inl FileNotFoundError
  else walk_path (files w) (if startswith [47] p then [] else cwd w)
         (split 47 p).

(** Trailing slashes do not matter to [mkdir]. *)
Fixpoint strip_slashes_rev (r : str) : str :=
  match r with
  | ch :: r' => if ch =? 47 then strip_slashes_rev r' else r
  | [] => []
  end.

Definition strip_trailing_slashes (p : str) : str :=
  match List.rev (strip_slashes_rev (List.rev p)) with
  | [] => match p with [] => [] | _ :: _ => [47] end
  | q => q
  end.

(** [os.path.isdir(p)]: errors of the lookup give [False]. *)
Definition isdir (w : world) (p : str) : bool :=
  match resolve w p with
  | inr k => is_dir_at (files w) k
  | inl _ => false
  end.

Definition os_path_isdir (p : str) : M bool :=
  fun w => (Return (isdir w p), w).

(** [os.mkdir(p)]: the parent must exist and the entry must not. *)
Definition os_mkdir (p : str) : M unit :=
  fun w =>
    match resolve w (strip_trailing_slashes p) with
    | inl e => (Raise e, w)
    | inr k =>
        if exists_at (files w) k then (Raise FileExistsError, w)
        else (Return tt, set_files (<[k := Dir]> (files w)) w)
    end.

(** [open(p, "wb")]: creates the file or truncates it; the handle is the
    resolved path. *)
Definition open_wb (p : str) : M (list str) :=
  fun w =>
    match resolve w p with
    | inl e => (Raise e, w)
    | inr k =>
        if is_dir_at (files w) k then (Raise IsADirectoryError, w)
        else (Return k, set_files (<[k := File []]> (files w)) w)
    end.

(** [f.write(data)] on a handle just opened; [data] is [None] when the
    payload was that of a multipart container. *)
Definition write (f : list str) (data : option bytes) : M unit :=
  fun w =>
    match data with
    | None => (Raise TypeError, w)
    | Some b =>
        (Return tt, add_written f b (set_files (<[f := File b]> (files w)) w))
    end.

(** [dict.get(key, default)]. *)
Definition dict_get (config : gmap str pyval) (key : str) (default : pyval) : pyval :=
  match config !! key with
  | Some v => v
  | None => default
  end.

(** The attributes of a [MailReader] instance. *)
Record MailReader : Type := {
  user : pyval;
  password : pyval;
  mail : pyval;
  host : pyval;
  port : pyval;
  ssl : pyval;
  path_attachments : pyval
}.

(** A credential is missing or empty: the key is absent, or its value is one
    Python counts as false ([None], the empty text, and [0], [False], the
    empty list for values that are not text). *)
Definition missing_or_empty (config : gmap str pyval) (key : str) : Prop :=
  match config !! key with
  | None => True
  | Some v => truthy v = false
  end.

(** Relations between the world before and after a computation. *)
Definition sent_grows (w w' : world) : Prop := sent w `prefix_of` sent w'.
Definition same_log (w w' : world) : Prop := log w' = log w.
Definition same_written (w w' : world) : Prop := written w' = written w.

(** [keeps R m]: whatever [m] does, and whether it returns or raises, the
    world after it is related by [R] to the world before. *)
Definition keeps {A : Type} (R : world -> world -> Prop) (m : M A) : Prop :=
  forall w, R w (snd (m w)).


(** The first chunk of a decoded header, which is all that [obtain_header]
    looks at. *)
Definition first_chunk (r : exn + list ((bytes + str) * option str))
    : exn + option ((bytes + str) * option str) :=
  match r with
  | inl e => inl e
  | inr l => inr (head l)
  end.

(** [same f]: the part [f] of the world is what it was. *)
Definition same {X : Type} (f : world -> X) (w w' : world) : Prop := f w' = f w.

(** The standard output has gained separator lines and nothing else. *)
Definition only_separators (w w' : world) : Prop :=
  exists n : nat, stdout w' = stdout w ++ List.repeat (List.repeat 61 100) n.

(** [sep.join(l)] for a separator of length one. *)
Fixpoint join {A : Type} (sep : A) (l : list (list A)) : list A :=
  match l with
  | [] => []
  | x :: r => match r with
              | [] => x
              | _ :: _ => x ++ sep :: join sep r
              end
  end.

(** ** [mail_reader.utils.settings]: what [yaml.load] can return

    The document is a mapping from tags to values or it is something else
    (nothing, a list, a scalar); the value under a tag is a mapping of
    settings or something else. Settings that are themselves mappings are not
    represented. *)
Inductive yaml_value : Type :=
  | YDict (m : gmap str pyval)
  | YOther (v : pyval).

Inductive yaml_document : Type :=
  | DocMapping (m : gmap str yaml_value)
  | DocOther (v : pyval).

(** Reading in text mode turns every line ending into a line feed. *)
Fixpoint universal_newlines (s : str) : str :=
  match s with
  | [] => []
  | ch :: r =>
      if ch =? 13 then
        match r with
        | ch' :: r' => if ch' =? 10 then 10 :: universal_newlines r'
                       else 10 :: universal_newlines r
        | [] => [10]
        end
      else ch :: universal_newlines r
  end.

(** [open(p, encoding="utf8")] and the reading of the whole file. *)
Definition read_text (p : str) : M str :=
  fun w =>
    match resolve w p with
    | inl e => (Raise e, w)
    | inr k =>
        match k with
        | [] => (Raise IsADirectoryError, w)
        | _ :: _ =>
            match files w !! k with
            | None => (Raise FileNotFoundError, w)
            | Some Dir => (Raise IsADirectoryError, w)
            | Some (File data) =>
                match utf8_decode data with
                | Some s => (Return (universal_newlines s), w)
                | None => (Raise UnicodeDecodeError, w)
                end
            end
        end
    end.

(** ** Sample data *)

(** Modelled from the spec: [mail_reader/utils/constants.py] is missing. The
    keys are the ones the configuration is said to recognise, under the names
    the docstring of [__init__] gives them; the spec says that host, port and
    output directory have defaults without giving them, so the defaults here
    are only samples. *)
Definition sample_constants : constants := {|
  USER := lit "user";
  PASSWORD := lit "password";
  MAIL := lit "mail";
  HOST := lit "host";
  PORT := lit "port";
  SSL := lit "ssl";
  PATH_ATTACHMENTS := lit "path_attachments";
  DEFAULT_MAIL := PyStr (lit "");
  DEFAULT_HOST := PyStr (lit "imap.gmail.com");
  DEFAULT_PORT := PyInt 993;
  DEFAULT_PATH_ATTACHMENTS := PyStr (lit "attachments")
|}.

(** A world with an empty file system, seen from its root. *)
Definition empty_world : world :=
  {| files := ∅; cwd := []; log := []; stdout := []; sent := [];
     written := [] |}.

(** The same, with a directory [Q1_Report_] in the working directory. *)
Definition world_with_folder : world :=
  set_files (<[ [lit "Q1_Report_"] := Dir ]> ∅) empty_world.

Definition sample_reader : MailReader :=
  {| user := PyStr (lit "me"); password := PyStr (lit "secret");
     mail := PyStr (lit ""); host := PyStr (lit "imap.gmail.com");
     port := PyInt 993; ssl := PyNone;
     path_attachments := PyStr (lit "attachments") |}.

Definition part_headers (ctype : string) (disposition name : option str)
    : headers :=
  {| Subject := None; From_ := None; content_type := lit ctype;
     Content_Disposition := disposition; filename := name |}.

(** [Content-Disposition: attachment; filename="report.pdf"], with a payload
    that is not text. *)
Definition report_pdf : Message :=
  Leaf (part_headers "application/pdf"
          (Some (lit "attachment; filename=report.pdf")) (Some (lit "report.pdf")))
       [Byte.x25; Byte.x50; Byte.x44; Byte.x46; Byte.xff; Byte.x00].

(** An attachment that carries no file name. *)
Definition nameless_attachment : Message :=
  Leaf (part_headers "application/octet-stream" (Some (lit "attachment")) None)
       [Byte.x01; Byte.x02].

(** "Hello world" as inline plain text. *)
Definition hello_world : Message :=
  Leaf (part_headers "text/plain" None None)
       [Byte.x48; Byte.x65; Byte.x6c; Byte.x6c; Byte.x6f; Byte.x20;
        Byte.x77; Byte.x6f; Byte.x72; Byte.x6c; Byte.x64].

(** Plain text in Latin-1 ("caf" and e-acute): not valid UTF-8. *)
Definition latin1_text : Message :=
  Leaf (part_headers "text/plain" None None)
       [Byte.x63; Byte.x61; Byte.x66; Byte.xe9].

(** Plain text with a lone octet 0xff and an inline disposition. *)
Definition broken_text : Message :=
  Leaf (part_headers "text/plain" (Some (lit "inline")) None) [Byte.xff].

(** An inline HTML part. *)
Definition html_part : Message :=
  Leaf (part_headers "text/html" (Some (lit "inline")) None)
       [Byte.x3c; Byte.x70; Byte.x3e].

(** A message that is a single PNG image. *)
Definition png_message : Message :=
  Leaf (part_headers "image/png" None None)
       [Byte.x89; Byte.x50; Byte.x4e; Byte.x47].

(** A server that accepts every command; it answers a search with status NO
    and anything else with OK and no data. *)
Definition refusing_server (_ : list command) (cmd : command)
    : exn + (str * list item) :=
  match cmd with
  | SEARCH _ => inr (lit "NO", [ItemNone])
  | _ => inr (lit "OK", [])
  end.

(** A server whose mailbox is empty: a search is answered with OK and one
    empty data element, a fetch of nothing is refused. *)
Definition empty_mailbox_server (_ : list command) (cmd : command)
    : exn + (str * list item) :=
  match cmd with
  | SEARCH _ => inr (lit "OK", [ItemBytes []])
  | FETCH _ _ => inl IMAP4_error
  | _ => inr (lit "OK", [])
  end.

(** A message with three parts: inline plain text, an attachment and inline
    HTML. *)
Definition three_parts : Message :=
  Multipart
    {| Subject := Some (lit "Q1 Report!"); From_ := Some (lit "ann@example.org");
       content_type := lit "multipart/mixed"; Content_Disposition := None;
       filename := None |}
    [hello_world; report_pdf; html_part].

(** A server whose mailbox holds one message, number 1. *)
Definition one_message_server (_ : list command) (cmd : command)
    : exn + (str * list item) :=
  match cmd with
  | SEARCH _ => inr (lit "OK", [ItemBytes [Byte.x31]])
  | FETCH _ _ =>
      inr (lit "OK", [ItemTuple [Byte.x31] [Byte.x2e]; ItemBytes [Byte.x29]])
  | _ => inr (lit "OK", [])
  end.

(** Header values that are plain text already come back unchanged from
    [decode_header]; a missing header is a fault. *)
Definition plain_decode_header (o : option str)
    : exn + list ((bytes + str) * option str) :=
  match o with
  | Some s => inr [(inr s, None)]
  | None => inl TypeError
  end.

(** A codec table that only knows UTF-8. *)
Definition utf8_only (b : bytes) (encoding : option str) : exn + str :=
  match encoding with
  | None => inl TypeError
  | Some e =>
      if bool_decide (e = lit "utf-8")
      then match utf8_decode b with
           | Some s => inr s
           | None => inl UnicodeDecodeError
           end
      else inl LookupError
  end.

(** A server that answers a search with three identifiers. *)
Definition numbered_server (_ : list command) (cmd : command)
    : exn + (str * list item) :=
  match cmd with
  | SEARCH _ =>
      inr (lit "OK",
           [ItemBytes [Byte.x31; Byte.x20; Byte.x32; Byte.x20; Byte.x33]])
  | _ => inr (lit "OK", [])
  end.

(** A server that answers a search with OK and no data. *)
Definition silent_server (_ : list command) (cmd : command)
    : exn + (str * list item) :=
  match cmd with
  | SEARCH _ => inr (lit "OK", [ItemNone])
  | _ => inr (lit "OK", [])
  end.

(** A disk on which an earlier run has saved [report.pdf]. *)
Definition world_with_report : world :=
  set_files
    (<[ [lit "attachments"; lit "Q1_Report_"; lit "report.pdf"]
        := File [Byte.x6f; Byte.x6c; Byte.x64] ]>
     (<[ [lit "attachments"; lit "Q1_Report_"] := Dir ]>
      (<[ [lit "attachments"] := Dir ]> ∅)))
    empty_world.

(** An attachment whose file name is an absolute path. *)
Definition absolute_attachment : headers :=
  part_headers "application/octet-stream" (Some (lit "attachment"))
    (Some (lit "/evil.txt")).

(** A message with inline text and inline HTML. *)
Definition text_and_html : Message :=
  Multipart (part_headers "multipart/alternative" None None)
    [hello_world; html_part].

(** A decoder that cuts every header in two chunks. *)
Definition chunked_decode_header (o : option str)
    : exn + list ((bytes + str) * option str) :=
  match o with
  | Some s => inr [(inr s, None); (inr (lit " (continued)"), None)]
  | None => inl TypeError
  end.

(** A disk with a settings file, and a parser that knows its text only: the
    document has the tag [mail_reader] with a user and a password. *)
Definition world_with_settings : world :=
  set_files
    (<[ [lit "settings.yaml"] := File [Byte.x6d; Byte.x3a; Byte.x0d; Byte.x0a] ]> ∅)
    empty_world.

Definition sample_yaml_load (text : str) : exn + yaml_document :=
  if bool_decide (text = [109; 58; 10])
  then inr (DocMapping
              {[ lit "mail_reader" :=
                   YDict (<[ lit "user" := PyStr (lit "me") ]>
                          {[ lit "password" := PyStr (lit "secret") ]}) ]})
  else inl (Exception (lit "yaml")).

Section MailReader.

(** The constants module. *)
Variable c : constants.

(** [str.isalnum] on one character, from the Unicode character database. *)
Variable isalnum : char -> bool.

(** The mail server: its answer to a command, given the commands sent
    before. An answer is a fault of [imaplib] or a status with a data list. *)
Variable server : list command -> command -> exn + (str * list item).

(** [email.message_from_bytes]. *)
Variable message_from_bytes : bytes -> Message.

(** [email.header.decode_header], and [bytes.decode(encoding)] for a named
    codec ([None] when the argument is not a [str]). *)
Variable decode_header : option str -> exn + list ((bytes + str) * option str).
Variable bytes_decode : bytes -> option str -> exn + str.

(** Sends one command and records it. *)
Definition send (cmd : command) : M (str * list item) :=
  fun w =>
    match server (sent w) cmd with
    | inl e => (Raise e, add_sent cmd w)
    | inr r => (Return r, add_sent cmd w)
    end.

(** *** [MailReader.__init__] *)
Definition __init__ (config : gmap str pyval) : exn + MailReader :=
  let self := {|
    user := dict_get config (USER c) PyNone;
    password := dict_get config (PASSWORD c) PyNone;
    mail := dict_get config (MAIL c) (DEFAULT_MAIL c);
    host := dict_get config (HOST c) (DEFAULT_HOST c);
    port := dict_get config (PORT c) (DEFAULT_PORT c);
    ssl := dict_get config (SSL c) PyNone;
    path_attachments :=
      dict_get config (PATH_ATTACHMENTS c) (DEFAULT_PATH_ATTACHMENTS c) |} in
  if negb (truthy (user self)) && negb (truthy (password self))
  then inl (Exception (lit "User and password are required"))
  else inr self.

(** *** [MailReader.clean_text] *)
Definition clean_text (text : str) : str :=
  List.map (fun ch => if isalnum ch then ch else 95) text.

(** *** [MailReader.obtain_header] *)
Definition obtain_header (msg : Message) : M (str * str) :=
  let first (l : list ((bytes + str) * option str)) : M ((bytes + str) * option str) :=
    match l with
    | x :: _ => ret x
    | [] => raise IndexError
    end in
  let lift {A : Type} (r : exn + A) : M A :=
    match r with
    | inl e => raise e
    | inr a => ret a
    end in
  l <- lift (decode_header (Subject (msg_headers msg))) ;;
  se <- first l ;;
  subject <- match fst se with
             | inl b => lift (bytes_decode b (Some (str_of_opt (snd se))))
             | inr s => ret s
             end ;;
  l' <- lift (decode_header (From_ (msg_headers msg))) ;;
  fe <- first l' ;;
  mail_from <- match fst fe with
               | inl b => lift (bytes_decode b (snd fe))
               | inr s => ret s
               end ;;
  logging_info (lit "Subject: " ++ subject) ;;
  logging_info (lit "From: " ++ mail_from) ;;
  ret (subject, mail_from).

(** *** [MailReader.download_attachment]

    A [path_attachments] that is not a [str] makes [os.path.isdir] or
    [os.mkdir] raise [TypeError] before anything is created. *)
Definition download_attachment (self : MailReader) (part : Message)
    (subject : str) : M unit :=
  let filename := filename (msg_headers part) in
  match filename with
  | Some name =>
      if truthy_opt_str filename then
        let folder_name := clean_text subject in
        d <- os_path_isdir folder_name ;;
        if negb d then
          match path_attachments self with
          | PyStr root =>
              d_root <- os_path_isdir root ;;
              (if negb d_root then os_mkdir root else ret tt) ;;
              let path := root ++ [47] ++ folder_name in
              d_path <- os_path_isdir path ;;
              (if negb d_path then os_mkdir path else ret tt) ;;
              let filepath := os_path_join path name in
              f <- open_wb filepath ;;
              write f (get_payload_decode part)
          | _ => raise TypeError
          end
        else ret tt
      else ret tt
  | None => ret tt
  end.

(** *** [MailReader.conn_and_auth] *)
Definition conn_and_auth (self : MailReader) : M unit :=
  send (IMAP4_SSL (host self) (port self)) ;;
  send (LOGIN (user self) (password self)) ;;
  ret tt.

(** [part.get_payload(decode=True).decode()]. *)
Definition payload_text (part : Message) : M str :=
  match get_payload_decode part with
  | None => raise AttributeError
  | Some b => match utf8_decode b with
              | Some s => ret s
              | None => raise UnicodeDecodeError
              end
  end.

(** The text of a part when it has one: the payload of a single body, when
    it is valid UTF-8. *)
Definition decoded_text (part : Message) : option str :=
  match get_payload_decode part with
  | Some b => utf8_decode b
  | None => None
  end.

(** [try: x = m  except Exception: pass]: afterwards [x] is bound ([Some])
    or was never assigned ([None]); effects made before the fault stay. *)
Definition try_except_pass {A : Type} (m : M A) : M (option A) :=
  fun w =>
    match m w with
    | (Return a, w') => (Return (Some a), w')
    | (Raise _, w') => (Return None, w')
    end.

(** Reading a local variable that may not have been assigned. *)
Definition read_local {A : Type} (x : option A) : M A :=
  match x with
  | Some a => ret a
  | None => raise UnboundLocalError
  end.

(** *** [MailReader.multipart_process] *)
Definition multipart_process (self : MailReader) (part : Message)
    (subject : str) : M unit :=
  let content_type := content_type (msg_headers part) in
  let content_disposition :=
    str_of_opt (Content_Disposition (msg_headers part)) in
  body <- try_except_pass (payload_text part) ;;
  if bool_decide (content_type = lit "text/plain")
     && negb (contains (lit "attachment") content_disposition)
  then b <- read_local body ;; logging_info b
  else if contains (lit "attachment") content_disposition
  then download_attachment self part subject
  else ret tt.

(** *** [MailReader.body_process] *)
Definition body_process (msg : Message) : M unit :=
  let content_type := content_type (msg_headers msg) in
  body <- payload_text msg ;;
  if bool_decide (content_type = lit "text/plain")
  then logging_info body
  else ret tt.

(** *** [MailReader.search_messages] *)
Definition search_messages (search_criteria : str) : M (list bytes) :=
  r <- send (SEARCH search_criteria) ;;
  let status := fst r in
  let messages := snd r in
  if negb (bool_decide (status = lit "OK")) then
    logging_warning (lit "No messages found!") ;;
    ret []
  else
    match messages with
    | [] => raise IndexError
    | ItemBytes b :: _ => ret (split Byte.x20 b)
    | _ :: _ => raise AttributeError
    end.

(** *** [MailReader.process] *)
Definition process (self : MailReader) : M unit :=
  conn_and_auth self ;;
  send (SELECT (lit "INBOX")) ;;
  messages <- search_messages (lit "ALL") ;;
  for_each messages (fun i =>
    r <- send (FETCH i (lit "(RFC822)")) ;;
    for_each (snd r) (fun response =>
      match response with
      | ItemTuple _ raw =>
          let msg := message_from_bytes raw in
          sf <- obtain_header msg ;;
          let subject := fst sf in
          (if is_multipart msg
           then for_each (walk msg) (fun part =>
                  multipart_process self part subject)
           else body_process msg) ;;
          print (List.repeat 61 100)
      | _ => ret tt
      end)) ;;
  send CLOSE ;;
  ret tt.

(** ** [mail_reader/utils/settings.py] and [runner/runner.py] *)

Section Runner.

(** Two more names of the constants module, and [yaml.load]. *)
Variable SETTINGS_FILE : str.
Variable MAIL_READER_TAG : str.
Variable yaml_load : str -> exn + yaml_document.

(** *** [get_file_config] *)
Definition get_file_config : M yaml_document :=
  text <- read_text SETTINGS_FILE ;;
  match yaml_load text with
  | inl e => raise e
  | inr config => ret config
  end.

(** *** [get_config]: [config.get(key, None)] needs a mapping. *)
Definition get_config (key : str) : M yaml_value :=
  config <- get_file_config ;;
  match config with
  | DocMapping m =>
      ret (match m !! key with
           | Some v => v
           | None => YOther PyNone
           end)
  | DocOther _ => raise AttributeError
  end.

(** [MailReader(config)] on what [get_config] returned: anything but a
    mapping has no [get]. *)
Definition new_MailReader (config : yaml_value) : M MailReader :=
  match config with
  | YDict m => match __init__ m with
               | inl e => raise e
               | inr self => ret self
               end
  | YOther _ => raise AttributeError
  end.

(** *** The body of [runner.py] *)
Definition main : M unit :=
  config_mail_reader <- get_config MAIL_READER_TAG ;;
  mail_reader <- new_MailReader config_mail_reader ;;
  process mail_reader ;;
  print (lit "Done").

End Runner.

(** ** Properties *)

(** *** The monad and the relations it keeps *)

Lemma bind_return {A B : Type} (m : M A) (k : A -> M B) w a w' :
  m w = (Return a, w') -> bind m k w = k a w'.
Proof. unfold bind. intros ->. reflexivity. Qed.


#[local] Instance sent_grows_preorder : PreOrder sent_grows.
Proof.
  split.
  - intros w. unfold sent_grows. reflexivity.
  - intros w1 w2 w3. unfold sent_grows. intros H12 H23. by etrans.
Qed.

#[local] Instance same_log_preorder : PreOrder same_log.
Proof.
  split.
  - intros w. reflexivity.
  - intros w1 w2 w3. unfold same_log. congruence.
Qed.

#[local] Instance same_written_preorder : PreOrder same_written.
Proof.
  split.
  - intros w. reflexivity.
  - intros w1 w2 w3. unfold same_written. congruence.
Qed.

Section Keeps.

Context (R : world -> world -> Prop) `{!PreOrder R}.

Lemma keeps_ret {A : Type} (a : A) : keeps R (ret a).
Proof. intros w. simpl. reflexivity. Qed.

Lemma keeps_raise {A : Type} (e : exn) : keeps R (@raise A e).
Proof. intros w. simpl. reflexivity. Qed.

Lemma keeps_bind {A B : Type} (m : M A) (k : A -> M B) :
  keeps R m -> (forall a, keeps R (k a)) -> keeps R (bind m k).
Proof.
  intros Hm Hk w. unfold bind. specialize (Hm w).
  destruct (m w) as [[a|e] w']; simpl in *.
  - etrans; [exact Hm | apply Hk].
  - exact Hm.
Qed.

Lemma keeps_for_each {A : Type} (l : list A) (body : A -> M unit) :
  (forall x, keeps R (body x)) -> keeps R (for_each l body).
Proof.
  intros Hbody. induction l as [|x l IH]; simpl.
  - apply keeps_ret.
  - apply keeps_bind; [apply Hbody | intros _; exact IH].
Qed.

Lemma keeps_try {A : Type} (m : M A) :
  keeps R m -> keeps R (try_except_pass m).
Proof.
  intros Hm w. unfold try_except_pass. specialize (Hm w).
  destruct (m w) as [[a|e] w']; exact Hm.
Qed.

Lemma keeps_if {A : Type} (b : bool) (m1 m2 : M A) :
  keeps R m1 -> keeps R m2 -> keeps R (if b then m1 else m2).
Proof. destruct b; auto. Qed.

End Keeps.

(** The file-system primitives leave the log and the commands alone; logging
    and printing leave the files alone. *)
Ltac primitive :=
  let w := fresh "w" in
  intros w; cbv beta delta [os_path_isdir os_mkdir open_wb write logging_info
    logging_warning print send payload_text read_local ret raise];
  repeat case_match; unfold same_log, same_written, sent_grows; simpl;
  first [ reflexivity | apply prefix_app_r; reflexivity ].

Lemma isdir_keeps R `{!PreOrder R} p : keeps R (os_path_isdir p).
Proof. intros w. simpl. reflexivity. Qed.

Lemma mkdir_same_written p : keeps same_written (os_mkdir p).
Proof. primitive. Qed.

Lemma mkdir_same_log p : keeps same_log (os_mkdir p).
Proof. primitive. Qed.

Lemma mkdir_sent_grows p : keeps sent_grows (os_mkdir p).
Proof. primitive. Qed.

Lemma open_same_log p : keeps same_log (open_wb p).
Proof. primitive. Qed.

Lemma open_sent_grows p : keeps sent_grows (open_wb p).
Proof. primitive. Qed.

Lemma write_same_log f d : keeps same_log (write f d).
Proof. primitive. Qed.

Lemma write_sent_grows f d : keeps sent_grows (write f d).
Proof. primitive. Qed.

Lemma info_sent_grows msg : keeps sent_grows (logging_info msg).
Proof. primitive. Qed.

Lemma warning_sent_grows msg : keeps sent_grows (logging_warning msg).
Proof. primitive. Qed.

Lemma print_sent_grows line : keeps sent_grows (print line).
Proof. primitive. Qed.

Lemma send_sent_grows cmd : keeps sent_grows (send cmd).
Proof. primitive. Qed.

Lemma payload_text_same_world part w : snd (payload_text part w) = w.
Proof. unfold payload_text. by repeat case_match. Qed.

Lemma payload_text_keeps R `{!PreOrder R} part : keeps R (payload_text part).
Proof. intros w. rewrite payload_text_same_world. reflexivity. Qed.

Lemma read_local_keeps R `{!PreOrder R} {A : Type} (x : option A) :
  keeps R (read_local x).
Proof. destruct x; [apply keeps_ret | apply keeps_raise]; done. Qed.

Create HintDb keeps.

#[local] Hint Resolve keeps_ret keeps_raise keeps_for_each keeps_try keeps_if
  isdir_keeps mkdir_same_written mkdir_same_log mkdir_sent_grows open_same_log open_sent_grows
  write_same_log write_sent_grows info_sent_grows warning_sent_grows
  print_sent_grows send_sent_grows payload_text_keeps read_local_keeps
  sent_grows_preorder same_log_preorder same_written_preorder
  : keeps.

Ltac keeps_step :=
  first [ apply keeps_bind; [apply _ | | intros ?]
        | apply keeps_for_each; [apply _ | intros ?]
        | apply keeps_if
        | apply keeps_try
        | progress eauto with keeps
        | progress (repeat case_match) ].

(** *** [clean_text] *)

Lemma clean_text_length text : length (clean_text text) = length text.
Proof. unfold clean_text. apply length_map. Qed.

Lemma clean_text_lookup text (i : nat) :
  clean_text text !! i = (fun ch => if isalnum ch then ch else 95) <$> (text !! i).
Proof.
  unfold clean_text. revert i.
  induction text as [|ch text IH]; intros [|i]; simpl; auto.
Qed.

Lemma clean_text_idempotent text :
  clean_text (clean_text text) = clean_text text.
Proof.
  unfold clean_text. induction text as [|ch text IH]; simpl; [done|].
  rewrite IH. f_equal.
  destruct (isalnum ch) eqn:E; [by rewrite E|].
  by destruct (isalnum 95).
Qed.

Lemma clean_text_alnum text :
  forallb isalnum text = true -> clean_text text = text.
Proof.
  unfold clean_text. induction text as [|ch text IH]; simpl; [done|].
  intros [Hch Htext]%andb_true_iff. rewrite Hch, IH; done.
Qed.

(** C7. [clean_text] is a total function that maps every text to a text of
    the same length in which, position by position, an alphanumeric character
    is kept and any other character is replaced by an underscore; hence it is
    idempotent, and it is the identity on texts made of alphanumeric
    characters only. *)
Theorem clean_text_spec (text : str) :
  length (clean_text text) = length text
  /\ (forall i : nat,
        clean_text text !! i
        = (fun ch => if isalnum ch then ch else 95) <$> (text !! i))
  /\ clean_text (clean_text text) = clean_text text
  /\ (forallb isalnum text = true -> clean_text text = text).
Proof.
  split; [apply clean_text_length|].
  split; [apply clean_text_lookup|].
  split; [apply clean_text_idempotent | apply clean_text_alnum].
Qed.

(** *** [__init__] *)

Lemma truthy_str_empty (s : str) : truthy (PyStr s) = false <-> s = [].
Proof. simpl. rewrite negb_false_iff, bool_decide_eq_true. done. Qed.

Lemma missing_or_empty_get config key :
  missing_or_empty config key <-> truthy (dict_get config key PyNone) = false.
Proof.
  unfold missing_or_empty, dict_get. destruct (config !! key); simpl; tauto.
Qed.

(** C3. Construction raises if and only if both the user and the password
    are missing or empty; in every other case it succeeds, and the fields
    that the configuration leaves out take their defaults. *)
Theorem init_raises_iff_both_missing (config : gmap str pyval) :
  ((exists e, __init__ config = inl e)
   <-> missing_or_empty config (USER c) /\ missing_or_empty config (PASSWORD c))
  /\ (~ (missing_or_empty config (USER c)
         /\ missing_or_empty config (PASSWORD c)) ->
      __init__ config = inr {|
        user := dict_get config (USER c) PyNone;
        password := dict_get config (PASSWORD c) PyNone;
        mail := dict_get config (MAIL c) (DEFAULT_MAIL c);
        host := dict_get config (HOST c) (DEFAULT_HOST c);
        port := dict_get config (PORT c) (DEFAULT_PORT c);
        ssl := dict_get config (SSL c) PyNone;
        path_attachments :=
          dict_get config (PATH_ATTACHMENTS c) (DEFAULT_PATH_ATTACHMENTS c) |}).
Proof.
  rewrite !missing_or_empty_get. unfold __init__. simpl.
  destruct (truthy (dict_get config (USER c) PyNone));
    destruct (truthy (dict_get config (PASSWORD c) PyNone)); simpl;
    (split; [split; [intros [e He]; try discriminate; auto
                    | intros [? ?]; try discriminate; eauto]
            | intros Hn; try reflexivity; exfalso; apply Hn; auto]).
Qed.

(** *** [search_messages] *)

Lemma search_messages_ok criteria w b rest :
  server (sent w) (SEARCH criteria) = inr (lit "OK", ItemBytes b :: rest) ->
  search_messages criteria w
  = (Return (split Byte.x20 b), add_sent (SEARCH criteria) w).
Proof.
  intros H. unfold search_messages, bind, send. rewrite H. reflexivity.
Qed.

Lemma search_messages_refused criteria w status data :
  server (sent w) (SEARCH criteria) = inr (status, data) ->
  status <> lit "OK" ->
  search_messages criteria w
  = (Return [],
     add_log (WARNING (lit "No messages found!")) (add_sent (SEARCH criteria) w)).
Proof.
  intros Hserver Hstatus. unfold search_messages, bind, send.
  rewrite Hserver. simpl.
  rewrite bool_decide_eq_false_2 by exact Hstatus. reflexivity.
Qed.

(** C6. When the server answers a search with a status other than OK,
    [search_messages] returns the empty list, logs one warning and does not
    raise; a loop over its result, as in [process], runs no iteration. *)
Theorem search_messages_not_ok (criteria : str) (w : world) (status : str)
    (data : list item) :
  server (sent w) (SEARCH criteria) = inr (status, data) ->
  status <> lit "OK" ->
  search_messages criteria w
  = (Return [],
     add_log (WARNING (lit "No messages found!")) (add_sent (SEARCH criteria) w))
  /\ forall body : bytes -> M unit,
       (messages <- search_messages criteria ;; for_each messages body) w
       = (Return tt,
          add_log (WARNING (lit "No messages found!"))
            (add_sent (SEARCH criteria) w)).
Proof.
  intros Hserver Hstatus.
  pose proof (search_messages_refused _ _ _ _ Hserver Hstatus) as Hsearch.
  split; [exact Hsearch|].
  intros body. rewrite (bind_return _ _ _ _ _ Hsearch). reflexivity.
Qed.

(** *** What the methods leave alone *)

Lemma bind_extends R `{!PreOrder R} {A B : Type} (m : M A) (k : A -> M B) w :
  (forall a, keeps R (k a)) -> R (snd (m w)) (snd (bind m k w)).
Proof.
  intros Hk. unfold bind. destruct (m w) as [[a|e] w']; simpl.
  - apply Hk.
  - reflexivity.
Qed.

Lemma download_attachment_same_log self part subject :
  keeps same_log (download_attachment self part subject).
Proof. unfold download_attachment. repeat keeps_step. Qed.

Lemma download_attachment_sent_grows self part subject :
  keeps sent_grows (download_attachment self part subject).
Proof. unfold download_attachment. repeat keeps_step. Qed.

Lemma multipart_process_sent_grows self part subject :
  keeps sent_grows (multipart_process self part subject).
Proof.
  unfold multipart_process. repeat keeps_step.
  apply download_attachment_sent_grows.
Qed.

Lemma body_process_sent_grows msg : keeps sent_grows (body_process msg).
Proof. unfold body_process. repeat keeps_step. Qed.

Lemma obtain_header_sent_grows msg : keeps sent_grows (obtain_header msg).
Proof. unfold obtain_header. repeat keeps_step. Qed.

(** *** [multipart_process] and [body_process], case by case *)

Lemma payload_text_decoded part w body :
  decoded_text part = Some body -> payload_text part w = (Return body, w).
Proof.
  unfold decoded_text, payload_text.
  destruct (get_payload_decode part); [|discriminate].
  intros ->. reflexivity.
Qed.

Lemma payload_text_undecoded part w :
  decoded_text part = None -> exists e, payload_text part w = (Raise e, w).
Proof.
  unfold decoded_text, payload_text.
  destruct (get_payload_decode part); [intros ->|]; eauto.
Qed.

(** A plain-text part that is not an attachment and whose payload decodes is
    logged, and nothing else happens. *)
Lemma multipart_process_text self part subject w body :
  content_type (msg_headers part) = lit "text/plain" ->
  contains (lit "attachment")
    (str_of_opt (Content_Disposition (msg_headers part))) = false ->
  decoded_text part = Some body ->
  multipart_process self part subject w = (Return tt, add_log (INFO body) w).
Proof.
  intros Htype Hdisp Hbody. unfold multipart_process, bind, try_except_pass.
  rewrite (payload_text_decoded _ _ _ Hbody), Htype, Hdisp.
  reflexivity.
Qed.

(** The same part when its payload does not decode: the handler swallows the
    fault of the decoding, and the read of [body] that follows raises. *)
Lemma multipart_process_text_undecoded self part subject w :
  content_type (msg_headers part) = lit "text/plain" ->
  contains (lit "attachment")
    (str_of_opt (Content_Disposition (msg_headers part))) = false ->
  decoded_text part = None ->
  multipart_process self part subject w = (Raise UnboundLocalError, w).
Proof.
  intros Htype Hdisp Hbody. unfold multipart_process, bind, try_except_pass.
  destruct (payload_text_undecoded _ w Hbody) as [e ->].
  rewrite Htype, Hdisp. reflexivity.
Qed.

(** An attachment goes to [download_attachment], whatever its text. *)
Lemma multipart_process_attachment self part subject w :
  contains (lit "attachment")
    (str_of_opt (Content_Disposition (msg_headers part))) = true ->
  multipart_process self part subject w
  = download_attachment self part subject w.
Proof.
  intros Hdisp. unfold multipart_process, bind, try_except_pass.
  pose proof (payload_text_same_world part w) as Hw.
  destruct (payload_text part w) as [[b|e] w']; simpl in Hw; subst w';
    rewrite Hdisp, andb_false_r; reflexivity.
Qed.

(** Any other part is dropped. *)
Lemma multipart_process_other self part subject w :
  content_type (msg_headers part) <> lit "text/plain" ->
  contains (lit "attachment")
    (str_of_opt (Content_Disposition (msg_headers part))) = false ->
  multipart_process self part subject w = (Return tt, w).
Proof.
  intros Htype Hdisp. unfold multipart_process, bind, try_except_pass.
  pose proof (payload_text_same_world part w) as Hw.
  destruct (payload_text part w) as [[b|e] w']; simpl in Hw; subst w';
    rewrite Hdisp, bool_decide_eq_false_2 by exact Htype; reflexivity.
Qed.

(** An attachment without a file name is not saved. *)
Lemma download_attachment_no_filename self part subject w :
  truthy_opt_str (filename (msg_headers part)) = false ->
  download_attachment self part subject w = (Return tt, w).
Proof.
  unfold download_attachment. destruct (filename (msg_headers part)); simpl.
  - intros ->. reflexivity.
  - reflexivity.
Qed.

Lemma if_mkdir_returns (b : bool) p w w' r :
  (if b then os_mkdir p else ret tt) w = (r, w') -> written w' = written w.
Proof.
  intros H. destruct b.
  - pose proof (mkdir_same_written p w) as Hk. rewrite H in Hk. exact Hk.
  - unfold ret in H. by simplify_eq.
Qed.

(** When [download_attachment] gets past its test of the folder and
    returns, it has written the payload once, and the file holds it. *)
Lemma download_attachment_returns self part subject w :
  truthy_opt_str (filename (msg_headers part)) = true ->
  isdir w (clean_text subject) = false ->
  fst (download_attachment self part subject w) = Return tt ->
  exists f data,
    get_payload_decode part = Some data
    /\ written (snd (download_attachment self part subject w))
       = written w ++ [(f, data)]
    /\ files (snd (download_attachment self part subject w)) !! f
       = Some (File data).
Proof.
  intros Hname Hfolder.
  destruct (download_attachment self part subject w) as [r w'] eqn:E.
  simpl. intros ->. unfold download_attachment in E.
  destruct (filename (msg_headers part)) as [name|]; [|discriminate].
  rewrite Hname in E. unfold bind, os_path_isdir in E.
  rewrite Hfolder in E. simpl in E.
  destruct (path_attachments self) as [| | |root|]; try discriminate.
  destruct ((if negb (isdir w root) then os_mkdir root else ret tt) w)
    as [[[]|e1] w1] eqn:E1; [|discriminate].
  apply if_mkdir_returns in E1.
  destruct ((if negb (isdir w1 (root ++ 47 :: clean_text subject))
             then os_mkdir (root ++ 47 :: clean_text subject) else ret tt) w1)
    as [[[]|e2] w2] eqn:E2; [|discriminate].
  apply if_mkdir_returns in E2.
  unfold open_wb in E.
  destruct (resolve w2 _) as [e3|f]; [discriminate|].
  destruct (is_dir_at (files w2) f); [discriminate|].
  unfold write in E.
  destruct (get_payload_decode part) as [data|]; [|discriminate].
  injection E as <-. exists f, data. simpl.
  split; [reflexivity|]. split.
  - congruence.
  - apply lookup_insert_eq.
Qed.

(** With the directories in place, the attachment is written over whatever
    file was there. *)
Lemma download_attachment_overwrites self h data subject w root name fr fp f :
  filename h = Some name -> name <> [] ->
  path_attachments self = PyStr root ->
  isdir w (clean_text subject) = false ->
  resolve w root = inr fr -> is_dir_at (files w) fr = true ->
  resolve w (root ++ [47] ++ clean_text subject) = inr fp ->
  is_dir_at (files w) fp = true ->
  resolve w (os_path_join (root ++ [47] ++ clean_text subject) name) = inr f ->
  is_dir_at (files w) f = false ->
  download_attachment self (Leaf h data) subject w
  = (Return tt, add_written f data (set_files (<[f := File data]> (files w)) w)).
Proof.
  intros Hname Hne Hroot Hfolder Hfr Hdr Hfp Hdp Hf Hdf.
  change ([47] ++ clean_text subject) with (47 :: clean_text subject) in *.
  unfold download_attachment. cbn [msg_headers]. rewrite Hname. simpl.
  rewrite bool_decide_eq_false_2 by exact Hne. simpl.
  unfold bind, os_path_isdir. rewrite Hfolder, Hroot. simpl.
  unfold isdir. rewrite Hfr, Hdr. simpl. rewrite Hfp, Hdp. simpl.
  unfold open_wb. rewrite Hf, Hdf. simpl.
  unfold set_files, add_written. simpl. rewrite insert_insert_eq.
  reflexivity.
Qed.

(** C8 (amended). Each part is handled by one rule. A plain-text part that
    is not an attachment and whose payload decodes as text adds exactly one
    log entry, the text, and changes nothing else. An attachment adds no log
    entry; without a file name it changes nothing at all, and with one, when
    the sanitized subject is not a directory of the working directory and the
    call returns, exactly one write is made, of the payload, and the file
    holds it. Any other part changes nothing. *)
Theorem multipart_process_dispatch (self : MailReader) (part : Message)
    (subject : str) (w : world) :
  let disposition := str_of_opt (Content_Disposition (msg_headers part)) in
  let after := multipart_process self part subject w in
  (content_type (msg_headers part) = lit "text/plain" ->
   contains (lit "attachment") disposition = false ->
   forall body, decoded_text part = Some body ->
     after = (Return tt, add_log (INFO body) w))
  /\ (contains (lit "attachment") disposition = true ->
      log (snd after) = log w
      /\ (truthy_opt_str (filename (msg_headers part)) = false ->
          after = (Return tt, w))
      /\ (truthy_opt_str (filename (msg_headers part)) = true ->
          isdir w (clean_text subject) = false ->
          fst after = Return tt ->
          exists f data,
            get_payload_decode part = Some data
            /\ written (snd after) = written w ++ [(f, data)]
            /\ files (snd after) !! f = Some (File data)))
  /\ (content_type (msg_headers part) <> lit "text/plain" ->
      contains (lit "attachment") disposition = false ->
      after = (Return tt, w)).
Proof.
  intros disposition after. subst disposition after.
  split; [|split].
  - intros Htype Hdisp body Hbody. by apply multipart_process_text.
  - intros Hdisp. rewrite (multipart_process_attachment _ _ _ _ Hdisp).
    split; [apply download_attachment_same_log|].
    split.
    + apply download_attachment_no_filename.
    + apply download_attachment_returns.
  - intros Htype Hdisp. by apply multipart_process_other.
Qed.

(** C10 (amended). A part without a [Content-Disposition] header is never an
    attachment: the header prints as "None", which does not contain
    "attachment". Such a part of type text/plain whose payload decodes as
    text has that text logged and nothing written; such a part of any other
    type changes nothing. *)
Theorem multipart_process_no_disposition (self : MailReader) (part : Message)
    (subject : str) (w : world) :
  Content_Disposition (msg_headers part) = None ->
  contains (lit "attachment")
    (str_of_opt (Content_Disposition (msg_headers part))) = false
  /\ (content_type (msg_headers part) = lit "text/plain" ->
      forall body, decoded_text part = Some body ->
        multipart_process self part subject w
        = (Return tt, add_log (INFO body) w))
  /\ (content_type (msg_headers part) <> lit "text/plain" ->
      multipart_process self part subject w = (Return tt, w)).
Proof.
  intros Hnone.
  assert (Hdisp : contains (lit "attachment")
            (str_of_opt (Content_Disposition (msg_headers part))) = false)
    by (rewrite Hnone; reflexivity).
  split; [exact Hdisp|]. split.
  - intros Htype body Hbody. by apply multipart_process_text.
  - intros Htype. by apply multipart_process_other.
Qed.

(** A single body that decodes: logged when it is plain text, dropped
    otherwise. *)
Lemma body_process_decoded msg w body :
  decoded_text msg = Some body ->
  body_process msg w
  = if bool_decide (content_type (msg_headers msg) = lit "text/plain")
    then (Return tt, add_log (INFO body) w)
    else (Return tt, w).
Proof.
  intros Hbody. unfold body_process, bind.
  rewrite (payload_text_decoded _ _ _ Hbody). by case_bool_decide.
Qed.

(** A single body that does not decode: the fault of the decoding goes
    through, whatever the content type. *)
Lemma body_process_undecoded h payload w :
  utf8_decode payload = None ->
  body_process (Leaf h payload) w = (Raise UnicodeDecodeError, w).
Proof.
  intros Hbody. unfold body_process, bind, payload_text. simpl.
  rewrite Hbody. reflexivity.
Qed.

(** *** [process] *)

(** The start of [process]: connection, login and selection of the inbox. *)
Lemma process_prologue self w r1 r2 r3 (k : M unit) :
  let connect := IMAP4_SSL (host self) (port self) in
  let login := LOGIN (user self) (password self) in
  let select := SELECT (lit "INBOX") in
  server (sent w) connect = inr r1 ->
  server (sent w ++ [connect]) login = inr r2 ->
  server (sent w ++ [connect; login]) select = inr r3 ->
  (conn_and_auth self ;; send select ;; k) w
  = k (add_sent select (add_sent login (add_sent connect w))).
Proof.
  intros connect login select H1 H2 H3.
  assert (Hconn : conn_and_auth self w
                  = (Return tt, add_sent login (add_sent connect w))).
  { unfold conn_and_auth, bind, send. fold connect. rewrite H1. simpl.
    fold login. rewrite H2. reflexivity. }
  assert (Hsel : send select (add_sent login (add_sent connect w))
                 = (Return r3,
                    add_sent select (add_sent login (add_sent connect w)))).
  { unfold send. simpl. rewrite <- app_assoc. simpl. rewrite H3. reflexivity. }
  rewrite (bind_return _ _ _ _ _ Hconn), (bind_return _ _ _ _ _ Hsel).
  reflexivity.
Qed.

(** X17. After a search that the server refuses, [process] fetches nothing:
    it logs the warning, sends the closing of the mailbox as its last
    command and leaves the files alone. *)
Lemma process_search_not_ok self w r1 r2 r3 status data :
  let connect := IMAP4_SSL (host self) (port self) in
  let login := LOGIN (user self) (password self) in
  let select := SELECT (lit "INBOX") in
  let search := SEARCH (lit "ALL") in
  server (sent w) connect = inr r1 ->
  server (sent w ++ [connect]) login = inr r2 ->
  server (sent w ++ [connect; login]) select = inr r3 ->
  server (sent w ++ [connect; login; select]) search = inr (status, data) ->
  status <> lit "OK" ->
  sent (snd (process self w))
  = sent w ++ [connect; login; select; search; CLOSE]
  /\ log (snd (process self w))
     = log w ++ [WARNING (lit "No messages found!")]
  /\ files (snd (process self w)) = files w.
Proof.
  intros connect login select search H1 H2 H3 H4 Hstatus.
  unfold process. fold select.
  rewrite (process_prologue self w r1 r2 r3 _ H1 H2 H3).
  fold connect login.
  set (w3 := add_sent select (add_sent login (add_sent connect w))).
  assert (Hsearch : search_messages (lit "ALL") w3
    = (Return [],
       add_log (WARNING (lit "No messages found!")) (add_sent search w3))).
  { apply (search_messages_refused _ _ status data); [|exact Hstatus].
    subst w3. simpl. rewrite <- !app_assoc. exact H4. }
  rewrite (bind_return _ _ _ _ _ Hsearch).
  unfold bind, send. simpl.
  destruct (server _ CLOSE); simpl; rewrite <- !app_assoc; auto.
Qed.


(** C9. When the server answers the search with OK and an empty data
    element, [search_messages] returns the list whose only element is the
    empty identifier, and [process] goes on to send a fetch for it. *)
Theorem process_fetches_empty_identifier (self : MailReader) (w : world)
    (r1 r2 r3 : str * list item) (rest : list item) :
  let connect := IMAP4_SSL (host self) (port self) in
  let login := LOGIN (user self) (password self) in
  let select := SELECT (lit "INBOX") in
  let search := SEARCH (lit "ALL") in
  server (sent w) connect = inr r1 ->
  server (sent w ++ [connect]) login = inr r2 ->
  server (sent w ++ [connect; login]) select = inr r3 ->
  server (sent w ++ [connect; login; select]) search
  = inr (lit "OK", ItemBytes [] :: rest) ->
  search_messages (lit "ALL")
    (add_sent select (add_sent login (add_sent connect w)))
  = (Return [[]],
     add_sent search (add_sent select (add_sent login (add_sent connect w))))
  /\ (sent w ++ [connect; login; select; search; FETCH [] (lit "(RFC822)")])
     `prefix_of` sent (snd (process self w)).
Proof.
  intros connect login select search H1 H2 H3 H4.
  set (w3 := add_sent select (add_sent login (add_sent connect w))).
  assert (Hsent3 : sent w3 = sent w ++ [connect; login; select]).
  { simpl. rewrite <- !app_assoc. reflexivity. }
  assert (Hsearch : search_messages (lit "ALL") w3
                    = (Return [[]], add_sent search w3)).
  { apply (search_messages_ok _ _ [] rest). rewrite Hsent3. exact H4. }
  split; [exact Hsearch|].
  unfold process. fold select.
  rewrite (process_prologue self w r1 r2 r3 _ H1 H2 H3).
  fold connect login w3.
  rewrite (bind_return _ _ _ _ _ Hsearch).
  set (w4 := add_sent search w3).
  set (fetch := FETCH [] (lit "(RFC822)")).
  assert (Hsent : sent w ++ [connect; login; select; search; fetch]
                  = sent (snd (send fetch w4))).
  { unfold send. destruct (server (sent w4) fetch); simpl;
      rewrite <- !app_assoc; reflexivity. }
  rewrite Hsent.
  match goal with
  | |- _ `prefix_of` sent ?x => change (sent_grows (snd (send fetch w4)) x)
  end.
  cbv beta.
  etrans; [|apply (bind_extends sent_grows); intros; repeat keeps_step].
  cbn [for_each].
  etrans; [|apply (bind_extends sent_grows); intros; repeat keeps_step].
  apply (bind_extends sent_grows). intros r.
  apply keeps_for_each; [apply _|]. intros response.
  destruct response; [apply keeps_ret; apply _ | apply keeps_ret; apply _ |].
  apply keeps_bind; [apply _ | apply obtain_header_sent_grows |]. intros sf.
  apply keeps_bind; [apply _ | | intros _; apply print_sent_grows].
  apply keeps_if; [| apply body_process_sent_grows].
  apply keeps_for_each; [apply _|]. intros part.
  apply multipart_process_sent_grows.
Qed.

(** ** Further properties *)

(** *** More relations that the methods keep *)

#[local] Instance same_preorder {X : Type} (f : world -> X) : PreOrder (same f).
Proof.
  split.
  - intros w. reflexivity.
  - intros w1 w2 w3. unfold same. congruence.
Qed.

#[local] Instance only_separators_preorder : PreOrder only_separators.
Proof.
  split.
  - intros w. exists 0%nat. simpl. by rewrite app_nil_r.
  - intros w1 w2 w3 [n Hn] [m Hm]. exists (n + m)%nat.
    rewrite Hm, Hn, <- app_assoc. f_equal. symmetry. apply repeat_app.
Qed.

Ltac primitive_same :=
  let w := fresh "w" in
  intros w; cbv beta delta [os_path_isdir os_mkdir open_wb write logging_info
    logging_warning print send payload_text read_local ret raise read_text];
  repeat case_match; unfold same; simpl; reflexivity.

Ltac primitive_separators :=
  let w := fresh "w" in
  intros w; cbv beta delta [os_path_isdir os_mkdir open_wb write logging_info
    logging_warning send payload_text read_local ret raise read_text];
  repeat case_match; exists 0%nat; simpl; by rewrite app_nil_r.

Lemma print_separator : keeps only_separators (print (List.repeat 61 100)).
Proof. intros w. exists 1%nat. reflexivity. Qed.

#[local] Hint Resolve same_preorder only_separators_preorder print_separator
  : keeps.
#[local] Hint Extern 3 (keeps (same _) _) => solve [primitive_same] : keeps.
#[local] Hint Extern 3 (keeps only_separators _) =>
  solve [primitive_separators] : keeps.

(** A part of the world that the three writing primitives leave alone is
    left alone by [download_attachment]. *)
Lemma download_attachment_same {X : Type} (f : world -> X) self part subject :
  (forall p, keeps (same f) (os_mkdir p)) ->
  (forall p, keeps (same f) (open_wb p)) ->
  (forall k d, keeps (same f) (write k d)) ->
  keeps (same f) (download_attachment self part subject).
Proof.
  intros Hmkdir Hopen Hwrite. unfold download_attachment.
  repeat keeps_step.
Qed.

(** X1. [download_attachment] touches nothing but the file system: whatever
    the part, the subject and the state of the disk, and whether it returns
    or raises, the log, the standard output, the commands sent to the server
    and the working directory are what they were. *)
Theorem download_attachment_only_files (self : MailReader) (part : Message)
    (subject : str) (w : world) :
  let after := snd (download_attachment self part subject w) in
  log after = log w /\ stdout after = stdout w /\ sent after = sent w
  /\ cwd after = cwd w.
Proof.
  simpl.
  repeat split;
    match goal with
    | |- ?f _ = ?f w => apply (download_attachment_same f)
    end; intros; primitive_same.
Qed.

(** X2. [download_attachment] does nothing at all when the working
    directory holds a directory named after the sanitized subject: no
    directory is created, no file is written and no error is raised,
    whatever the part and the output directory are. *)
Theorem download_attachment_skips (self : MailReader) (part : Message)
    (subject : str) (w : world) :
  isdir w (clean_text subject) = true ->
  download_attachment self part subject w = (Return tt, w).
Proof.
  intros Hdir. unfold download_attachment.
  destruct (filename (msg_headers part)) as [name|]; [|reflexivity].
  destruct (truthy_opt_str (Some name)); [|reflexivity].
  unfold bind, os_path_isdir. rewrite Hdir. reflexivity.
Qed.

(** X3. With both directories in place, [download_attachment] replaces the
    content of the target file by the payload, whatever the file held (or
    creates it), writes once, and leaves every other entry of the file system
    as it was. *)
Theorem download_attachment_replaces (self : MailReader) (h : headers)
    (data : bytes) (subject : str) (w : world) (root name : str)
    (fr fp f : list str) :
  filename h = Some name -> name <> [] ->
  path_attachments self = PyStr root ->
  isdir w (clean_text subject) = false ->
  resolve w root = inr fr -> is_dir_at (files w) fr = true ->
  resolve w (root ++ [47] ++ clean_text subject) = inr fp ->
  is_dir_at (files w) fp = true ->
  resolve w (os_path_join (root ++ [47] ++ clean_text subject) name) = inr f ->
  is_dir_at (files w) f = false ->
  let after := download_attachment self (Leaf h data) subject w in
  fst after = Return tt
  /\ files (snd after) !! f = Some (File data)
  /\ (forall g, g <> f -> files (snd after) !! g = files w !! g)
  /\ written (snd after) = written w ++ [(f, data)].
Proof.
  intros Hname Hne Hroot Hfolder Hfr Hdr Hfp Hdp Hf Hdf. simpl.
  rewrite (download_attachment_overwrites self h data subject w root name
             fr fp f) by assumption.
  simpl. split; [reflexivity|]. split; [apply lookup_insert_eq|].
  split; [|reflexivity].
  intros g Hg. by apply lookup_insert_ne.
Qed.

(** X4. A file name that starts with a slash is used as it is: with the
    directories in place, the payload is written to that absolute path and
    not under the output directory. *)
Theorem download_attachment_absolute_name (self : MailReader) (h : headers)
    (data : bytes) (subject : str) (w : world) (root name : str)
    (fr fp f : list str) :
  filename h = Some name -> startswith [47] name = true ->
  path_attachments self = PyStr root ->
  isdir w (clean_text subject) = false ->
  resolve w root = inr fr -> is_dir_at (files w) fr = true ->
  resolve w (root ++ [47] ++ clean_text subject) = inr fp ->
  is_dir_at (files w) fp = true ->
  resolve w name = inr f -> is_dir_at (files w) f = false ->
  download_attachment self (Leaf h data) subject w
  = (Return tt, add_written f data (set_files (<[f := File data]> (files w)) w)).
Proof.
  intros Hname Habs Hroot Hfolder Hfr Hdr Hfp Hdp Hf Hdf.
  apply (download_attachment_overwrites self h data subject w root name
           fr fp f); try assumption.
  - intros ->. discriminate Habs.
  - unfold os_path_join. rewrite Habs. exact Hf.
Qed.

(** X5. [body_process] raises exactly when the payload does not decode,
    whatever the content type, and then logs nothing; when the payload
    decodes it returns, having logged the text if the type is text/plain and
    having done nothing otherwise. *)
Theorem body_process_outcome (msg : Message) (w : world) :
  (forall body, decoded_text msg = Some body ->
     body_process msg w
     = (Return tt,
        if bool_decide (content_type (msg_headers msg) = lit "text/plain")
        then add_log (INFO body) w else w))
  /\ (decoded_text msg = None ->
      exists e, body_process msg w = (Raise e, w)).
Proof.
  split.
  - intros body Hbody. rewrite (body_process_decoded _ _ _ Hbody).
    by case_bool_decide.
  - intros Hnone. unfold body_process, bind.
    destruct (payload_text_undecoded _ w Hnone) as [e ->]. eauto.
Qed.

(** X6. For a text/plain part that is not an attachment, [multipart_process]
    returns if and only if the payload decodes as UTF-8; when it does not,
    [UnboundLocalError] is raised and nothing is logged or written. *)
Theorem multipart_process_text_returns_iff (self : MailReader) (part : Message)
    (subject : str) (w : world) :
  content_type (msg_headers part) = lit "text/plain" ->
  contains (lit "attachment")
    (str_of_opt (Content_Disposition (msg_headers part))) = false ->
  (fst (multipart_process self part subject w) = Return tt
   <-> exists body, decoded_text part = Some body)
  /\ (decoded_text part = None ->
      multipart_process self part subject w = (Raise UnboundLocalError, w)).
Proof.
  intros Htype Hdisp.
  destruct (decoded_text part) as [body|] eqn:Hbody.
  - rewrite (multipart_process_text _ _ _ _ _ Htype Hdisp Hbody).
    split; [|discriminate]. split; eauto.
  - rewrite (multipart_process_text_undecoded _ _ _ _ Htype Hdisp Hbody).
    split; [|reflexivity]. split; [discriminate|]. intros [? ?]. discriminate.
Qed.

(** Parts that are never attachments and whose text, if any, decodes. *)
Lemma for_each_parts_logged self subject (parts : list Message) w :
  Forall (fun part =>
    contains (lit "attachment")
      (str_of_opt (Content_Disposition (msg_headers part))) = false
    /\ (content_type (msg_headers part) = lit "text/plain" ->
        is_Some (decoded_text part))) parts ->
  for_each parts (fun part => multipart_process self part subject) w
  = (Return tt,
     {| files := files w; cwd := cwd w;
        log := log w ++ omap (fun part =>
                 if bool_decide (content_type (msg_headers part) = lit "text/plain")
                 then INFO <$> decoded_text part else None) parts;
        stdout := stdout w; sent := sent w; written := written w |}).
Proof.
  intros Hparts. revert w.
  induction Hparts as [|part parts [Hdisp Htext] _ IH]; intros w.
  - simpl. rewrite app_nil_r. by destruct w.
  - cbn [for_each omap list_omap]. unfold bind.
    destruct (decide (content_type (msg_headers part) = lit "text/plain"))
      as [Htype|Htype].
    + destruct (Htext Htype) as [body Hbody].
      rewrite (multipart_process_text _ _ _ _ _ Htype Hdisp Hbody), IH.
      rewrite bool_decide_eq_true_2 by exact Htype. rewrite Hbody. simpl.
      by rewrite <- app_assoc.
    + rewrite (multipart_process_other _ _ _ _ Htype Hdisp), IH.
      by rewrite bool_decide_eq_false_2 by exact Htype.
Qed.

(** X7. The loop of [process] over the parts of a message, when no part is
    an attachment and every text/plain part decodes: it returns, the texts of
    the text/plain parts are logged in document order, one entry each, and
    nothing else changes; in particular no file is written. *)
Theorem multipart_loop_logs_in_order (self : MailReader) (subject : str)
    (msg : Message) (w : world) :
  Forall (fun part =>
    contains (lit "attachment")
      (str_of_opt (Content_Disposition (msg_headers part))) = false
    /\ (content_type (msg_headers part) = lit "text/plain" ->
        is_Some (decoded_text part))) (walk msg) ->
  let after :=
    for_each (walk msg) (fun part => multipart_process self part subject) w in
  fst after = Return tt
  /\ log (snd after)
     = log w ++ omap (fun part =>
         if bool_decide (content_type (msg_headers part) = lit "text/plain")
         then INFO <$> decoded_text part else None) (walk msg)
  /\ files (snd after) = files w /\ written (snd after) = written w
  /\ stdout (snd after) = stdout w /\ sent (snd after) = sent w.
Proof.
  intros Hparts. simpl. rewrite (for_each_parts_logged _ _ _ _ Hparts).
  simpl. repeat split; reflexivity.
Qed.

(** *** [search_messages] and the identifiers *)

Lemma split_cons {A : Type} `{EqDecision A} (sep : A) (s : list A) :
  exists x r, split sep s = x :: r.
Proof.
  induction s as [|a s (x & r & IH)]; simpl; [eauto|].
  destruct (decide (a = sep)); [eauto|]. rewrite IH. eauto.
Qed.

Lemma join_split {A : Type} `{EqDecision A} (sep : A) (s : list A) :
  join sep (split sep s) = s.
Proof.
  induction s as [|a s IH]; simpl; [reflexivity|].
  destruct (split_cons sep s) as (x & r & Hsplit). rewrite Hsplit in *.
  destruct (decide (a = sep)) as [->|Hne].
  - change (join sep ([] :: x :: r)) with (sep :: join sep (x :: r)).
    by rewrite IH.
  - cbn [join] in *. destruct r; by rewrite <- IH.
Qed.

Lemma split_no_separator {A : Type} `{EqDecision A} (sep : A) (s : list A) :
  Forall (fun x => sep ∉ x) (split sep s).
Proof.
  induction s as [|a s IH]; simpl.
  - constructor; [|constructor]. apply not_elem_of_nil.
  - destruct (decide (a = sep)) as [->|Hne].
    + constructor; [apply not_elem_of_nil | exact IH].
    + destruct (split sep s) as [|x r]; simpl.
      * constructor; [|constructor]. apply not_elem_of_cons.
        split; [congruence | apply not_elem_of_nil].
      * inversion IH; subst. constructor; [|assumption].
        apply not_elem_of_cons. split; [congruence | assumption].
Qed.

Lemma split_length {A : Type} `{EqDecision A} (sep : A) (s : list A) :
  length (split sep s) = S (length (filter (fun a => a = sep) s)).
Proof.
  induction s as [|a s IH]; simpl; [reflexivity|].
  destruct (split_cons sep s) as (x & r & Hsplit). rewrite Hsplit in *.
  rewrite filter_cons. destruct (decide (a = sep)); simpl; by rewrite <- IH.
Qed.

(** X8. When the server answers OK, the identifiers that [search_messages]
    returns are the pieces of the first data element between its spaces:
    none of them contains a space, there is one more of them than there are
    spaces, and joined by spaces they give the element back. One command is
    sent and nothing is logged. *)
Theorem search_messages_identifiers (criteria : str) (w : world) (b : bytes)
    (rest : list item) :
  server (sent w) (SEARCH criteria) = inr (lit "OK", ItemBytes b :: rest) ->
  exists ids : list bytes,
    search_messages criteria w = (Return ids, add_sent (SEARCH criteria) w)
    /\ join Byte.x20 ids = b
    /\ Forall (fun i => Byte.x20 ∉ i) ids
    /\ length ids = S (length (filter (fun a => a = Byte.x20) b)).
Proof.
  intros Hserver. exists (split Byte.x20 b).
  split; [by apply (search_messages_ok _ _ _ rest)|].
  split; [apply join_split|].
  split; [apply split_no_separator | apply split_length].
Qed.

(** X9. What [search_messages] lets through: a fault of the server, and,
    under status OK, [AttributeError] when the first data element is [None]
    and [IndexError] when there is no data element; in each case the command
    has been sent and nothing is logged. *)
Theorem search_messages_faults (criteria : str) (w : world) :
  (forall e, server (sent w) (SEARCH criteria) = inl e ->
     search_messages criteria w = (Raise e, add_sent (SEARCH criteria) w))
  /\ (forall rest,
        server (sent w) (SEARCH criteria) = inr (lit "OK", ItemNone :: rest) ->
        search_messages criteria w
        = (Raise AttributeError, add_sent (SEARCH criteria) w))
  /\ (server (sent w) (SEARCH criteria) = inr (lit "OK", []) ->
      search_messages criteria w
      = (Raise IndexError, add_sent (SEARCH criteria) w)).
Proof.
  unfold search_messages, bind, send.
  split; [|split]; intros; rewrite H; reflexivity.
Qed.

(** *** [obtain_header] *)

(** X10. [obtain_header] logs only once both headers are decoded: when it
    raises, the world is exactly what it was, and when it returns a subject
    and a sender, the log has gained the two entries "Subject: ..." and
    "From: ...", in this order, and nothing else has changed. *)
Theorem obtain_header_outcome (msg : Message) (w : world) :
  match obtain_header msg w with
  | (Return (subject, mail_from), w') =>
      w' = add_log (INFO (lit "From: " ++ mail_from))
             (add_log (INFO (lit "Subject: " ++ subject)) w)
  | (Raise _, w') => w' = w
  end.
Proof.
  unfold obtain_header, bind, ret, raise, logging_info.
  repeat case_match; simplify_eq; reflexivity.
Qed.

(** *** The commands that [process] sends *)


Lemma download_attachment_same_sent self part subject :
  keeps (same sent) (download_attachment self part subject).
Proof. apply download_attachment_same; intros; primitive_same. Qed.

Lemma download_attachment_same_stdout self part subject :
  keeps only_separators (download_attachment self part subject).
Proof. unfold download_attachment. repeat keeps_step. Qed.

#[local] Hint Resolve download_attachment_same_sent
  download_attachment_same_stdout : keeps.


Lemma response_only_separators self (response : item) :
  keeps only_separators
    (match response with
     | ItemTuple _ raw =>
         let msg := message_from_bytes raw in
         sf <- obtain_header msg ;;
         let subject := fst sf in
         (if is_multipart msg
          then for_each (walk msg) (fun part =>
                 multipart_process self part subject)
          else body_process msg) ;;
         print (List.repeat 61 100)
     | _ => ret tt
     end).
Proof.
  destruct response; [apply keeps_ret; apply _ | apply keeps_ret; apply _ |].
  unfold obtain_header, multipart_process, body_process. repeat keeps_step.
Qed.





Lemma process_only_separators self : keeps only_separators (process self).
Proof.
  unfold process, conn_and_auth, search_messages.
  repeat first [ apply response_only_separators | keeps_step ].
Qed.

(** X12. Every line that [process] prints is the separator, one hundred
    equals signs, whether it returns or raises. *)
Theorem process_prints_separators (self : MailReader) (w : world) :
  exists n : nat,
    stdout (snd (process self w))
    = stdout w ++ List.repeat (List.repeat 61 100) n.
Proof. exact (process_only_separators self w). Qed.

(** *** The settings and the runner *)

Lemma read_text_world p w : snd (read_text p w) = w.
Proof. unfold read_text. by repeat case_match. Qed.

(** X13. [get_config] only reads: the world after it is the world before,
    whether it returns or raises. On a settings document that is a mapping, a
    tag that is absent is not a fault, the result is [None]; a document that
    is not a mapping makes it raise [AttributeError]. *)
Theorem get_config_outcome (SETTINGS_FILE : str)
    (yaml_load : str -> exn + yaml_document) (key : str) (w : world) :
  snd (get_config SETTINGS_FILE yaml_load key w) = w
  /\ (forall text doc,
        read_text SETTINGS_FILE w = (Return text, w) ->
        yaml_load text = inr (DocMapping doc) -> doc !! key = None ->
        get_config SETTINGS_FILE yaml_load key w = (Return (YOther PyNone), w))
  /\ (forall text v,
        read_text SETTINGS_FILE w = (Return text, w) ->
        yaml_load text = inr (DocOther v) ->
        get_config SETTINGS_FILE yaml_load key w = (Raise AttributeError, w)).
Proof.
  split; [|split].
  - unfold get_config, get_file_config, bind.
    pose proof (read_text_world SETTINGS_FILE w) as Hw.
    destruct (read_text SETTINGS_FILE w) as [[text|e] w']; simpl in Hw;
      subst w'; [|reflexivity].
    destruct (yaml_load text) as [e|[doc|v]]; reflexivity.
  - intros text doc Hread Hload Hkey.
    unfold get_config, get_file_config, bind.
    rewrite Hread, Hload. simpl. by rewrite Hkey.
  - intros text v Hread Hload.
    unfold get_config, get_file_config, bind.
    rewrite Hread, Hload. reflexivity.
Qed.

(** The two ways the runner can go. *)
Lemma main_cases (SETTINGS_FILE MAIL_READER_TAG : str)
    (yaml_load : str -> exn + yaml_document) (w : world) :
  (exists e, main SETTINGS_FILE MAIL_READER_TAG yaml_load w = (Raise e, w))
  \/ (exists text doc m self,
        read_text SETTINGS_FILE w = (Return text, w)
        /\ yaml_load text = inr (DocMapping doc)
        /\ doc !! MAIL_READER_TAG = Some (YDict m)
        /\ __init__ m = inr self
        /\ main SETTINGS_FILE MAIL_READER_TAG yaml_load w
           = (process self ;; print (lit "Done")) w).
Proof.
  unfold main, get_config, get_file_config.
  pose proof (read_text_world SETTINGS_FILE w) as Hw.
  destruct (read_text SETTINGS_FILE w) as [[text|e] w'] eqn:Hread;
    simpl in Hw; subst w'.
  2:{ left. exists e. unfold bind at 1 2 3. by rewrite Hread. }
  destruct (yaml_load text) as [e|[doc|v]] eqn:Hload.
  - left. exists e. unfold bind at 1 2 3. by rewrite Hread, Hload.
  - destruct (doc !! MAIL_READER_TAG) as [[m|v]|] eqn:Htag.
    + destruct (__init__ m) as [e|self] eqn:Hinit.
      * left. exists e. unfold bind at 1 2 3. rewrite Hread, Hload. simpl.
        rewrite Htag. unfold bind at 1. simpl. by rewrite Hinit.
      * right. exists text, doc, m, self. repeat split; try assumption.
        unfold bind at 1 2 3. rewrite Hread, Hload. simpl.
        rewrite Htag. unfold bind at 1. simpl. by rewrite Hinit.
    + left. exists AttributeError. unfold bind at 1 2 3.
      rewrite Hread, Hload. simpl. by rewrite Htag.
    + left. exists AttributeError. unfold bind at 1 2 3.
      rewrite Hread, Hload. simpl. by rewrite Htag.
  - left. exists AttributeError. unfold bind at 1 2 3.
    by rewrite Hread, Hload.
Qed.

(** X14. The runner reads and checks the configuration before anything
    else. Either it raises with the world untouched (no command sent, nothing
    logged, printed or written), or the settings file was read, holds a
    mapping with a mapping under the tag that the constructor accepts, and
    the run is that of [process] on the instance, followed by the printing of
    "Done". *)
Theorem main_configuration_first (SETTINGS_FILE MAIL_READER_TAG : str)
    (yaml_load : str -> exn + yaml_document) (w : world) :
  (exists e, main SETTINGS_FILE MAIL_READER_TAG yaml_load w = (Raise e, w))
  \/ (exists text doc m self,
        read_text SETTINGS_FILE w = (Return text, w)
        /\ yaml_load text = inr (DocMapping doc)
        /\ doc !! MAIL_READER_TAG = Some (YDict m)
        /\ __init__ m = inr self
        /\ main SETTINGS_FILE MAIL_READER_TAG yaml_load w
           = (process self ;; print (lit "Done")) w).
Proof. apply main_cases. Qed.

(** X15. What the runner prints: separator lines, and then "Done" when it
    returns; when it raises, "Done" is not printed. *)
Theorem main_prints_done (SETTINGS_FILE MAIL_READER_TAG : str)
    (yaml_load : str -> exn + yaml_document) (w : world) :
  exists n : nat,
    stdout (snd (main SETTINGS_FILE MAIL_READER_TAG yaml_load w))
    = stdout w ++ List.repeat (List.repeat 61 100) n
      ++ match fst (main SETTINGS_FILE MAIL_READER_TAG yaml_load w) with
         | Return _ => [lit "Done"]
         | Raise _ => []
         end.
Proof.
  destruct (main_cases SETTINGS_FILE MAIL_READER_TAG yaml_load w)
    as [[e ->]|(text & doc & m & self & _ & _ & _ & _ & ->)].
  - exists 0%nat. simpl. by rewrite app_nil_r.
  - destruct (process_only_separators self w) as [n Hn].
    exists n. unfold bind, print.
    destruct (process self w) as [[[]|e] w']; simpl in *; rewrite Hn.
    + by rewrite <- app_assoc.
    + by rewrite app_nil_r.
Qed.

(** *** Paths, and the directories that [download_attachment] creates *)




















(** *** Mail without attachments *)






End MailReader.


(** ** The properties at sample inputs *)

Example clean_text_Q1_Report :
  clean_text isalnum_ascii (lit "Q1 Report!") = lit "Q1_Report_".
Proof. reflexivity. Qed.

Lemma clean_text_spec_witness :
  forallb isalnum_ascii (lit "Q1Report") = true
  /\ clean_text isalnum_ascii (lit "Q1Report") = lit "Q1Report".
Proof.
  split; [reflexivity|].
  apply (clean_text_spec isalnum_ascii (lit "Q1Report")). reflexivity.
Defined.

Lemma init_raises_iff_both_missing_witness :
  (exists e, __init__ sample_constants ∅ = inl e)
  /\ __init__ sample_constants {[ lit "password" := PyStr (lit "secret") ]}
     = inr {| user := PyNone; password := PyStr (lit "secret");
              mail := PyStr (lit ""); host := PyStr (lit "imap.gmail.com");
              port := PyInt 993; ssl := PyNone;
              path_attachments := PyStr (lit "attachments") |}.
Proof.
  split.
  - apply (init_raises_iff_both_missing sample_constants ∅).
    split; vm_compute; exact I.
  - rewrite (proj2 (init_raises_iff_both_missing sample_constants
                      {[ lit "password" := PyStr (lit "secret") ]})).
    + vm_compute. reflexivity.
    + intros [_ H]. vm_compute in H. discriminate H.
Defined.

(** C4. A configuration with a user and no password: the constructor
    returns an instance instead of raising. *)
Theorem init_accepts_missing_password :
  missing_or_empty {[ lit "user" := PyStr (lit "me") ]}
    (PASSWORD sample_constants)
  /\ __init__ sample_constants {[ lit "user" := PyStr (lit "me") ]}
     = inr {| user := PyStr (lit "me"); password := PyNone;
              mail := PyStr (lit ""); host := PyStr (lit "imap.gmail.com");
              port := PyInt 993; ssl := PyNone;
              path_attachments := PyStr (lit "attachments") |}.
Proof. split; vm_compute; [exact I | reflexivity]. Qed.

Lemma search_messages_not_ok_witness :
  search_messages refusing_server (lit "ALL") empty_world
  = (Return [],
     add_log (WARNING (lit "No messages found!"))
       (add_sent (SEARCH (lit "ALL")) empty_world)).
Proof.
  apply (search_messages_not_ok refusing_server (lit "ALL") empty_world
           (lit "NO") [ItemNone]).
  - reflexivity.
  - vm_compute. discriminate.
Defined.

Lemma process_fetches_empty_identifier_witness :
  [IMAP4_SSL (PyStr (lit "imap.gmail.com")) (PyInt 993);
   LOGIN (PyStr (lit "me")) (PyStr (lit "secret"));
   SELECT (lit "INBOX"); SEARCH (lit "ALL"); FETCH [] (lit "(RFC822)")]
  `prefix_of`
  sent (snd (process isalnum_ascii empty_mailbox_server (fun _ => hello_world)
               plain_decode_header utf8_only sample_reader empty_world)).
Proof.
  apply (process_fetches_empty_identifier isalnum_ascii empty_mailbox_server
           (fun _ => hello_world) plain_decode_header utf8_only sample_reader
           empty_world (lit "OK", []) (lit "OK", []) (lit "OK", []) []);
    reflexivity.
Defined.

(** With an empty mailbox the fetch of the empty identifier is what ends the
    run. *)
Example process_empty_mailbox :
  fst (process isalnum_ascii empty_mailbox_server (fun _ => hello_world)
         plain_decode_header utf8_only sample_reader empty_world)
  = Raise IMAP4_error.
Proof. vm_compute. reflexivity. Qed.

(** C1. With a directory named after the sanitized subject in the working
    directory, the attachment is not saved: nothing is created or written. *)
Theorem download_attachment_skipped_by_folder :
  filename (msg_headers report_pdf) = Some (lit "report.pdf")
  /\ isdir world_with_folder (clean_text isalnum_ascii (lit "Q1 Report!")) = true
  /\ download_attachment isalnum_ascii sample_reader report_pdf
       (lit "Q1 Report!") world_with_folder
     = (Return tt, world_with_folder).
Proof. repeat split; vm_compute; reflexivity. Qed.

(** On an empty file system the same call creates both directories and
    writes the payload. *)
Example download_attachment_fresh :
  let after := download_attachment isalnum_ascii sample_reader report_pdf
                 (lit "Q1 Report!") empty_world in
  fst after = Return tt
  /\ files (snd after)
     = <[ [lit "attachments"; lit "Q1_Report_"; lit "report.pdf"]
          := File [Byte.x25; Byte.x50; Byte.x44; Byte.x46; Byte.xff; Byte.x00] ]>
       (<[ [lit "attachments"; lit "Q1_Report_"] := Dir ]>
        (<[ [lit "attachments"] := Dir ]> ∅)).
Proof. split; vm_compute; reflexivity. Qed.

(** C2. A plain-text, inline part whose payload is not valid UTF-8: the
    fault of the decoding is swallowed, and the use of [body] raises. *)
Theorem multipart_process_undecodable_raises :
  content_type (msg_headers broken_text) = lit "text/plain"
  /\ contains (lit "attachment")
       (str_of_opt (Content_Disposition (msg_headers broken_text))) = false
  /\ decoded_text broken_text = None
  /\ multipart_process isalnum_ascii sample_reader broken_text
       (lit "Q1 Report!") empty_world
     = (Raise UnboundLocalError, empty_world).
Proof. repeat split; vm_compute; reflexivity. Qed.

(** C5. A message that is a single image: [body_process] raises. *)
Theorem body_process_image_raises :
  is_multipart png_message = false
  /\ content_type (msg_headers png_message) <> lit "text/plain"
  /\ body_process png_message empty_world
     = (Raise UnicodeDecodeError, empty_world).
Proof.
  split; [reflexivity|]. split; [vm_compute; discriminate|].
  vm_compute. reflexivity.
Qed.

(** C8, as first stated, fails on an attachment without a file name: no
    write is made. *)
Lemma nameless_attachment_not_written :
  contains (lit "attachment")
    (str_of_opt (Content_Disposition (msg_headers nameless_attachment))) = true
  /\ multipart_process isalnum_ascii sample_reader nameless_attachment
       (lit "Q1 Report!") empty_world
     = (Return tt, empty_world)
  /\ ~ (exists f data,
          written (snd (multipart_process isalnum_ascii sample_reader
                          nameless_attachment (lit "Q1 Report!") empty_world))
          = written empty_world ++ [(f, data)]).
Proof.
  split; [reflexivity|]. split; [vm_compute; reflexivity|].
  intros (f & data & H). vm_compute in H. discriminate H.
Qed.

Lemma multipart_process_dispatch_witness :
  multipart_process isalnum_ascii sample_reader hello_world (lit "Q1 Report!")
    empty_world
  = (Return tt, add_log (INFO (lit "Hello world")) empty_world)
  /\ (exists f data,
        get_payload_decode report_pdf = Some data
        /\ written (snd (multipart_process isalnum_ascii sample_reader
                           report_pdf (lit "Q1 Report!") empty_world))
           = written empty_world ++ [(f, data)]
        /\ files (snd (multipart_process isalnum_ascii sample_reader
                         report_pdf (lit "Q1 Report!") empty_world)) !! f
           = Some (File data))
  /\ multipart_process isalnum_ascii sample_reader html_part (lit "Q1 Report!")
       empty_world
     = (Return tt, empty_world).
Proof.
  split; [|split].
  - apply (multipart_process_dispatch isalnum_ascii sample_reader hello_world
             (lit "Q1 Report!") empty_world); reflexivity.
  - apply (multipart_process_dispatch isalnum_ascii sample_reader report_pdf
             (lit "Q1 Report!") empty_world); reflexivity.
  - apply (multipart_process_dispatch isalnum_ascii sample_reader html_part
             (lit "Q1 Report!") empty_world);
      [vm_compute; discriminate | reflexivity].
Defined.

(** The three rules in one message: one log entry for the text, one file for
    the attachment, nothing for the HTML part. *)
Example process_three_parts :
  let after := process isalnum_ascii one_message_server (fun _ => three_parts)
                 plain_decode_header utf8_only sample_reader empty_world in
  fst after = Return tt
  /\ log (snd after)
     = [INFO (lit "Subject: Q1 Report!"); INFO (lit "From: ann@example.org");
        INFO (lit "Hello world")]
  /\ written (snd after)
     = [([lit "attachments"; lit "Q1_Report_"; lit "report.pdf"],
         [Byte.x25; Byte.x50; Byte.x44; Byte.x46; Byte.xff; Byte.x00])].
Proof. repeat split; vm_compute; reflexivity. Qed.

(** C10, as first stated, fails on plain text that is not UTF-8: nothing is
    logged, and the call raises. *)
Lemma latin1_text_not_logged :
  Content_Disposition (msg_headers latin1_text) = None
  /\ content_type (msg_headers latin1_text) = lit "text/plain"
  /\ multipart_process isalnum_ascii sample_reader latin1_text
       (lit "Q1 Report!") empty_world
     = (Raise UnboundLocalError, empty_world)
  /\ log (snd (multipart_process isalnum_ascii sample_reader latin1_text
                 (lit "Q1 Report!") empty_world)) = [].
Proof. repeat split; vm_compute; reflexivity. Qed.

Lemma multipart_process_no_disposition_witness :
  multipart_process isalnum_ascii sample_reader hello_world (lit "Q1 Report!")
    empty_world
  = (Return tt, add_log (INFO (lit "Hello world")) empty_world)
  /\ multipart_process isalnum_ascii sample_reader png_message
       (lit "Q1 Report!") empty_world
     = (Return tt, empty_world).
Proof.
  split.
  - apply (multipart_process_no_disposition isalnum_ascii sample_reader
             hello_world (lit "Q1 Report!") empty_world); reflexivity.
  - apply (multipart_process_no_disposition isalnum_ascii sample_reader
             png_message (lit "Q1 Report!") empty_world);
      [reflexivity | vm_compute; discriminate].
Defined.

(** ** Further properties at sample inputs *)

(** X18. [obtain_header] looks at the first chunk of each decoded header
    only: two decoders that agree on the first chunk of the subject and of
    the sender of a message give the same result and the same log, whatever
    the chunks that follow. *)
Theorem obtain_header_first_chunk
    (decode_header decode_header' :
       option str -> exn + list ((bytes + str) * option str))
    (bytes_decode : bytes -> option str -> exn + str)
    (msg : Message) (w : world) :
  first_chunk (decode_header (Subject (msg_headers msg)))
  = first_chunk (decode_header' (Subject (msg_headers msg))) ->
  first_chunk (decode_header (From_ (msg_headers msg)))
  = first_chunk (decode_header' (From_ (msg_headers msg))) ->
  obtain_header decode_header bytes_decode msg w
  = obtain_header decode_header' bytes_decode msg w.
Proof.
  unfold obtain_header, first_chunk, bind, ret, raise. intros Hs Hf.
  destruct (decode_header (Subject (msg_headers msg))) as [e|[|x l]],
    (decode_header' (Subject (msg_headers msg))) as [e'|[|x' l']],
    (decode_header (From_ (msg_headers msg))) as [e2|[|y l2]],
    (decode_header' (From_ (msg_headers msg))) as [e2'|[|y' l2']];
    simplify_eq/=; reflexivity.
Qed.

Lemma obtain_header_first_chunk_witness :
  obtain_header plain_decode_header utf8_only three_parts empty_world
  = obtain_header chunked_decode_header utf8_only three_parts empty_world.
Proof.
  apply (obtain_header_first_chunk plain_decode_header chunked_decode_header
           utf8_only three_parts empty_world); reflexivity.
Defined.

Lemma download_attachment_skips_witness :
  download_attachment isalnum_ascii sample_reader report_pdf
    (lit "Q1 Report!") world_with_folder
  = (Return tt, world_with_folder).
Proof.
  apply (download_attachment_skips isalnum_ascii sample_reader report_pdf
           (lit "Q1 Report!") world_with_folder).
  vm_compute. reflexivity.
Defined.

Lemma download_attachment_replaces_witness :
  files world_with_report
    !! [lit "attachments"; lit "Q1_Report_"; lit "report.pdf"]
  = Some (File [Byte.x6f; Byte.x6c; Byte.x64])
  /\ files (snd (download_attachment isalnum_ascii sample_reader report_pdf
                   (lit "Q1 Report!") world_with_report))
       !! [lit "attachments"; lit "Q1_Report_"; lit "report.pdf"]
     = Some (File [Byte.x25; Byte.x50; Byte.x44; Byte.x46; Byte.xff; Byte.x00]).
Proof.
  split; [vm_compute; reflexivity|].
  apply (download_attachment_replaces isalnum_ascii sample_reader
           (msg_headers report_pdf) _ (lit "Q1 Report!") world_with_report
           (lit "attachments") (lit "report.pdf") [lit "attachments"]
           [lit "attachments"; lit "Q1_Report_"]
           [lit "attachments"; lit "Q1_Report_"; lit "report.pdf"]);
    first [ discriminate | vm_compute; reflexivity ].
Defined.

Lemma download_attachment_absolute_name_witness :
  download_attachment isalnum_ascii sample_reader
    (Leaf absolute_attachment [Byte.x21]) (lit "Q1 Report!") world_with_report
  = (Return tt,
     add_written [lit "evil.txt"] [Byte.x21]
       (set_files (<[ [lit "evil.txt"] := File [Byte.x21] ]>
                     (files world_with_report)) world_with_report)).
Proof.
  apply (download_attachment_absolute_name isalnum_ascii sample_reader
           absolute_attachment [Byte.x21] (lit "Q1 Report!") world_with_report
           (lit "attachments") (lit "/evil.txt") [lit "attachments"]
           [lit "attachments"; lit "Q1_Report_"] [lit "evil.txt"]);
    vm_compute; reflexivity.
Defined.


Lemma body_process_outcome_witness :
  body_process hello_world empty_world
  = (Return tt, add_log (INFO (lit "Hello world")) empty_world)
  /\ exists e, body_process latin1_text empty_world = (Raise e, empty_world).
Proof.
  split.
  - apply (body_process_outcome hello_world empty_world). reflexivity.
  - apply (body_process_outcome latin1_text empty_world). reflexivity.
Defined.

Lemma multipart_process_text_returns_iff_witness :
  multipart_process isalnum_ascii sample_reader latin1_text (lit "Q1 Report!")
    empty_world
  = (Raise UnboundLocalError, empty_world).
Proof.
  apply (multipart_process_text_returns_iff isalnum_ascii sample_reader
           latin1_text (lit "Q1 Report!") empty_world); reflexivity.
Defined.

Lemma multipart_loop_logs_in_order_witness :
  log (snd (for_each (walk text_and_html)
              (fun part => multipart_process isalnum_ascii sample_reader part
                             (lit "Q1 Report!")) empty_world))
  = [INFO (lit "Hello world")].
Proof.
  apply (multipart_loop_logs_in_order isalnum_ascii sample_reader
           (lit "Q1 Report!") text_and_html empty_world).
  repeat constructor; try (intros H; vm_compute in H; discriminate H);
    try (intros _; eexists; vm_compute; reflexivity).
Defined.

Lemma search_messages_identifiers_witness :
  exists ids : list bytes,
    search_messages numbered_server (lit "ALL") empty_world
    = (Return ids, add_sent (SEARCH (lit "ALL")) empty_world)
    /\ length ids = 3%nat.
Proof.
  destruct (search_messages_identifiers numbered_server (lit "ALL")
              empty_world [Byte.x31; Byte.x20; Byte.x32; Byte.x20; Byte.x33] [])
    as (ids & Hrun & _ & _ & Hlen); [reflexivity|].
  exists ids. split; [exact Hrun | exact Hlen].
Defined.

Lemma search_messages_faults_witness :
  search_messages silent_server (lit "ALL") empty_world
  = (Raise AttributeError, add_sent (SEARCH (lit "ALL")) empty_world).
Proof.
  apply (search_messages_faults silent_server (lit "ALL") empty_world
         ) with (rest := []).
  reflexivity.
Defined.

Lemma process_search_not_ok_witness :
  sent (snd (process isalnum_ascii refusing_server (fun _ => hello_world)
               plain_decode_header utf8_only sample_reader empty_world))
  = [IMAP4_SSL (PyStr (lit "imap.gmail.com")) (PyInt 993);
     LOGIN (PyStr (lit "me")) (PyStr (lit "secret"));
     SELECT (lit "INBOX"); SEARCH (lit "ALL"); CLOSE].
Proof.
  apply (process_search_not_ok isalnum_ascii refusing_server
           (fun _ => hello_world) plain_decode_header utf8_only sample_reader
           empty_world (lit "OK", []) (lit "OK", []) (lit "OK", [])
           (lit "NO") [ItemNone]); try reflexivity.
  vm_compute. discriminate.
Defined.

Lemma get_config_outcome_witness :
  get_config (lit "settings.yaml") sample_yaml_load (lit "other")
    world_with_settings
  = (Return (YOther PyNone), world_with_settings).
Proof.
  apply (get_config_outcome (lit "settings.yaml") sample_yaml_load
           (lit "other") world_with_settings)
    with (text := [109; 58; 10])
         (doc := {[ lit "mail_reader" :=
                      YDict (<[ lit "user" := PyStr (lit "me") ]>
                             {[ lit "password" := PyStr (lit "secret") ]}) ]});
    vm_compute; reflexivity.
Defined.

